(** * Authentication service over a managed identity provider

    A shallow embedding of the Go packages [auth] (inputs, outputs and their
    constructors) and [auth_cognito] (the service [cognitoAuth]), followed by
    the properties of the service.

    Conventions of the embedding:
    - a Go pointer that may be nil is an [option];
    - a Go result pair (pointer to T, error) is a pair
      [option T * option error], so that "no output next to an error" is a
      property and not a typing fact;
    - the identity-provider client is a state machine over an abstract
      provider state; every request sent to it is appended to a call trace;
    - a nil dereference or an index out of range is the outcome [Panicked]. *)

From stdpp Require Import base gmap strings list.
From Stdlib Require Import ZArith Ascii String.

Local Open Scope string_scope.
Local Open Scope Z_scope.

(** ** Package [strings] (Go standard library) *)

Module strings.

  (** [strings.HasPrefix s prefix]. *)
Fixpoint HasPrefix (s prefix : string) : bool :=
    match prefix with
    | EmptyString => true
    | String b prefix' =>
        match s with
        | EmptyString => false
        | String a s' => if Ascii.eqb a b then HasPrefix s' prefix' else false
        end
    end.

  (** [strings.Contains s substr]: [substr] occurs in [s] at some offset. *)
Fixpoint Contains (s substr : string) : bool :=
    HasPrefix s substr ||
    match s with
    | EmptyString => false
    | String _ s' => Contains s' substr
    end.

  (** Lower-casing of one byte: 'A'..'Z' go to 'a'..'z'. *)
Definition lower_byte (a : ascii) : ascii :=
    let n := nat_of_ascii a in
    if (Nat.leb 65 n && Nat.leb n 90)%bool then ascii_of_nat (n + 32) else a.

  (** [strings.ToLower] on the ASCII range, where Go lower-cases byte by
    byte. Bytes from 128 up are kept as they are here, whereas Go maps the
    decoded runes through the Unicode tables: the statements about
    lower-cased usernames are made for ASCII usernames. *)
Fixpoint ToLower (s : string) : string :=
    match s with
    | EmptyString => EmptyString
    | String a s' => String (lower_byte a) (ToLower s')
    end.

End strings.

(** ** Package [app_error] *)

Module app_error.

  (** A Go [error] value as the service sees it: either an [ApiError] made by
      [NewApiError], or an error value handed over by the provider client,
      known through its text [err.Error()]. *)
Inductive error : Type :=
  | ApiError (StatusCode : Z) (Message : string)
  | ClientError (text : string).

  (** Modelled from the spec: package [app_error] is not among the sources;
      [NewApiError code message] builds the domain error that carries the
      status code and the message. *)
Definition NewApiError (code : Z) (message : string) : error :=
    ApiError code message.

Inductive StatusClass : Type :=
  | Unauthorized | NotFound | Conflict | BadRequest | Internal.

  (** Modelled from the spec: the status classes correspond one to one to
      HTTP status codes (401, 404, 409, 400, 500). *)
Definition class_of_code (code : Z) : option StatusClass :=
    if code =? 401 then Some Unauthorized
    else if code =? 404 then Some NotFound
    else if code =? 409 then Some Conflict
    else if code =? 400 then Some BadRequest
    else if code =? 500 then Some Internal
    else None.

  (** The status class an error carries; an error of the provider client is
      no domain error and carries none. *)
Definition statusClass (e : error) : option StatusClass :=
    match e with
    | ApiError code _ => class_of_code code
    | ClientError _ => None
    end.

  (** A typed domain error: one made by [NewApiError]. *)
Definition is_domain_error (e : error) : bool :=
    match e with
    | ApiError _ _ => true
    | ClientError _ => false
    end.

End app_error.

(** ** Package [auth]: inputs, outputs and constructors *)

Module auth.

  (** [type UserGroup string] with its two constants. *)
Definition UserGroup : Type := string.
Definition Admin : UserGroup := "Admin".
Definition User : UserGroup := "User".

Module Claims.
Record t : Type := { Email : string; Id : string; UserGroups : list string }.
End Claims.

Module LoginInput.
Record t : Type := { Username : string; Password : string }.
End LoginInput.

Definition NewLoginInput (username password : string) : LoginInput.t :=
    let lowerCaseUsername := strings.ToLower username in
    {| LoginInput.Username := lowerCaseUsername;
       LoginInput.Password := password |}.

Module LoginOutput.
Record t : Type :=
      { AccessToken : string; IdToken : string; RefreshToken : string }.
End LoginOutput.

Module SignUpInput.
Record t : Type := { Username : string; Password : string; Name : string }.
End SignUpInput.

Definition NewSignUpInput (username password name : string) : SignUpInput.t :=
    let lowerCaseUsername := strings.ToLower username in
    {| SignUpInput.Username := lowerCaseUsername;
       SignUpInput.Password := password;
       SignUpInput.Name := name |}.

Module SignUpOutput.
Record t : Type := { IsConfirmed : bool }.
End SignUpOutput.

Module ConfirmSignUpInput.
Record t : Type := { Username : string; Code : string }.
End ConfirmSignUpInput.

Definition NewConfirmSignUpInput (username code : string)
    : ConfirmSignUpInput.t :=
    let lowerCaseUsername := strings.ToLower username in
    {| ConfirmSignUpInput.Username := lowerCaseUsername;
       ConfirmSignUpInput.Code := code |}.

Module ConfirmSignUpOutput.
Record t : Type := { }.
End ConfirmSignUpOutput.

Module GetUserInput.
Record t : Type := { AccessToken : string }.
End GetUserInput.

Definition NewGetUserInput (accessToken : string) : GetUserInput.t :=
    {| GetUserInput.AccessToken := accessToken |}.

Module RefreshTokenInput.
Record t : Type := { RefreshToken : string }.
End RefreshTokenInput.

Definition NewRefreshTokenInput (refreshToken : string)
    : RefreshTokenInput.t :=
    {| RefreshTokenInput.RefreshToken := refreshToken |}.

Module RefreshTokenOutput.
Record t : Type := { AccessToken : string; IdToken : string }.
End RefreshTokenOutput.

Module GetUserOutput.
Record t : Type := { Username : string; Name : string }.
End GetUserOutput.

Module AddGroupInput.
Record t : Type := { Username : string; GroupName : UserGroup }.
End AddGroupInput.

Module RemoveGroupInput.
Record t : Type := { Username : string; GroupName : UserGroup }.
End RemoveGroupInput.

Module CreateAdminInput.
Record t : Type := { Password : string; Name : string; Username : string }.
End CreateAdminInput.

Definition NewCreateAdminInput (username password name : string)
    : CreateAdminInput.t :=
    let lowerCaseUsername := strings.ToLower username in
    {| CreateAdminInput.Password := password;
       CreateAdminInput.Name := name;
       CreateAdminInput.Username := lowerCaseUsername |}.

Module CreateAdminOutput.
Record t : Type := { Username : string }.
End CreateAdminOutput.

End auth.

(** ** Package [jwt_verify] *)

Module jwt_verify.

(** The parsed token, first component of [ParseJWT]'s result; the service
    discards it. *)
Definition Token : Type := unit.

Module Claims.
Record t : Type := { Email : string; Sub : string; UserGroups : list string }.
End Claims.

(** Modelled from the spec: package [jwt_verify] is not among the sources;
    the verifier parses a token string into structured claims (subject id,
    email, group memberships) or fails. [ParseJWT] has Go's three results. *)
Record JWTVerify : Type :=
  { ParseJWT : string -> Token * Claims.t * option app_error.error }.

End jwt_verify.

(** ** The identity-provider SDK: requests, responses and the client *)

Module types.

Module AttributeType.
Record t : Type := { Name : option string; Value : option string }.
End AttributeType.

Module AuthenticationResultType.
Record t : Type :=
  { AccessToken : option string;
    IdToken : option string;
    RefreshToken : option string }.
End AuthenticationResultType.

Definition DeliveryMediumType : Type := string.
Definition DeliveryMediumTypeEmail : DeliveryMediumType := "EMAIL".
Definition DeliveryMediumTypeSms : DeliveryMediumType := "SMS".

End types.

Module cognito.

Module InitiateAuthInput.
Record t : Type :=
  { AuthFlow : string;
    AuthParameters : gmap string string;
    ClientId : option string }.
End InitiateAuthInput.

(** A response to [InitiateAuth] carries either an authentication result or
    a challenge (then [AuthenticationResult] is nil). *)
Module InitiateAuthOutput.
Record t : Type :=
  { AuthenticationResult : option types.AuthenticationResultType.t;
    ChallengeName : string;
    ChallengeParameters : gmap string string;
    Session : option string }.
End InitiateAuthOutput.

Module SignUpInput.
Record t : Type :=
  { ClientId : option string;
    Username : option string;
    Password : option string;
    UserAttributes : list types.AttributeType.t }.
End SignUpInput.

Module SignUpOutput.
Record t : Type := { UserConfirmed : bool; UserSub : option string }.
End SignUpOutput.

Module ConfirmSignUpInput.
Record t : Type :=
  { ClientId : option string;
    Username : option string;
    ConfirmationCode : option string }.
End ConfirmSignUpInput.

Module ConfirmSignUpOutput.
Record t : Type := { }.
End ConfirmSignUpOutput.

Module GetUserInput.
Record t : Type := { AccessToken : option string }.
End GetUserInput.

Module GetUserOutput.
Record t : Type :=
  { Username : option string;
    UserAttributes : list types.AttributeType.t }.
End GetUserOutput.

Module AdminAddUserToGroupInput.
Record t : Type :=
  { UserPoolId : option string;
    Username : option string;
    GroupName : option string }.
End AdminAddUserToGroupInput.

Module AdminAddUserToGroupOutput.
Record t : Type := { }.
End AdminAddUserToGroupOutput.

Module AdminRemoveUserFromGroupInput.
Record t : Type :=
  { UserPoolId : option string;
    Username : option string;
    GroupName : option string }.
End AdminRemoveUserFromGroupInput.

Module AdminRemoveUserFromGroupOutput.
Record t : Type := { }.
End AdminRemoveUserFromGroupOutput.

Module AdminCreateUserInput.
Record t : Type :=
  { UserPoolId : option string;
    Username : option string;
    UserAttributes : list types.AttributeType.t;
    TemporaryPassword : option string;
    DesiredDeliveryMediums : list types.DeliveryMediumType;
    ForceAliasCreation : bool }.
End AdminCreateUserInput.

Module AdminCreateUserOutput.
Record t : Type := { }.
End AdminCreateUserOutput.

(** What a client method hands back: the output, or an error of which the
    service reads the text [err.Error()]. *)
Inductive Response (A : Type) : Type :=
| Success (out : A)
| Failure (text : string).
Arguments Success {A} out.
Arguments Failure {A} text.

(** The client, over a provider state [P]: each method takes the request and
    the provider's state and gives the new state and the response. *)
Record Client (P : Type) : Type :=
  { InitiateAuth :
      InitiateAuthInput.t -> P -> P * Response InitiateAuthOutput.t;
    SignUp : SignUpInput.t -> P -> P * Response SignUpOutput.t;
    ConfirmSignUp :
      ConfirmSignUpInput.t -> P -> P * Response ConfirmSignUpOutput.t;
    GetUser : GetUserInput.t -> P -> P * Response GetUserOutput.t;
    AdminAddUserToGroup :
      AdminAddUserToGroupInput.t -> P ->
      P * Response AdminAddUserToGroupOutput.t;
    AdminRemoveUserFromGroup :
      AdminRemoveUserFromGroupInput.t -> P ->
      P * Response AdminRemoveUserFromGroupOutput.t;
    AdminCreateUser :
      AdminCreateUserInput.t -> P -> P * Response AdminCreateUserOutput.t }.
Arguments InitiateAuth {P} _ _ _.
Arguments SignUp {P} _ _ _.
Arguments ConfirmSignUp {P} _ _ _.
Arguments GetUser {P} _ _ _.
Arguments AdminAddUserToGroup {P} _ _ _.
Arguments AdminRemoveUserFromGroup {P} _ _ _.
Arguments AdminCreateUser {P} _ _ _.

(** One entry of the call trace: the method called and its request. *)
Inductive Call : Type :=
| CallInitiateAuth (input : InitiateAuthInput.t)
| CallSignUp (input : SignUpInput.t)
| CallConfirmSignUp (input : ConfirmSignUpInput.t)
| CallGetUser (input : GetUserInput.t)
| CallAdminAddUserToGroup (input : AdminAddUserToGroupInput.t)
| CallAdminRemoveUserFromGroup (input : AdminRemoveUserFromGroupInput.t)
| CallAdminCreateUser (input : AdminCreateUserInput.t).

End cognito.

(** [aws.String]: a pointer to a copy of the string. *)
Module aws.
Definition String (s : string) : option string := Some s.
End aws.

(** ** Package [auth_cognito]: the service *)

Module auth_cognito.

Import app_error.

(** How a call of the service ends: it returns, or it panics (nil pointer
    dereference, index out of range). *)
Inductive outcome (A : Type) : Type :=
| Returned (a : A)
| Panicked.
Arguments Returned {A} a.
Arguments Panicked {A}.

Section Service.

Context {P : Type}.

(** What lies outside the service: the provider's state, the requests sent
    to the provider so far (oldest first) and the lines given to the logger. *)
Record World : Type :=
  { provider : P;
    calls : list cognito.Call;
    logged : list (string * error) }.

(** A computation of the service. *)
Definition M (A : Type) : Type := World -> outcome A * World.

Definition ret {A : Type} (a : A) : M A := fun w => (Returned a, w).

Definition bind {A B : Type} (m : M A) (k : A -> M B) : M B :=
  fun w =>
    match m w with
    | (Returned a, w') => k a w'
    | (Panicked, w') => (Panicked, w')
    end.

Definition panic {A : Type} : M A := fun w => (Panicked, w).

Notation "'let*' x := m 'in' k" := (bind m (fun x => k))
  (at level 10, x name, m at level 100, k at level 200).

(** [*p]: the value behind a pointer; a nil pointer panics. *)
Definition deref {A : Type} (p : option A) : M A :=
  match p with
  | Some a => ret a
  | None => panic
  end.

(** [s[0]]: the first element of a slice; an empty slice panics. *)
Definition index0 {A : Type} (s : list A) : M A :=
  match s with
  | a :: _ => ret a
  | [] => panic
  end.

(** [c.logger.Error(msg, err)]. *)
Definition logger_Error (msg : string) (err : error) : M unit :=
  fun w =>
    (Returned tt,
     {| provider := provider w;
        calls := calls w;
        logged := logged w ++ [(msg, err)] |}).

(** A call of a client method: the request is recorded, the provider moves
    to its new state and the response comes back. *)
Definition invoke {I O : Type}
    (method : I -> P -> P * cognito.Response O)
    (record : I -> cognito.Call) (input : I) : M (cognito.Response O) :=
  fun w =>
    let '(p', r) := method input (provider w) in
    (Returned r,
     {| provider := p';
        calls := calls w ++ [record input];
        logged := logged w |}).

(** [type cognitoAuth struct]; the context carries no data the service
    reads, and the logger is the [logged] part of the world, so neither is
    a field here nor an argument of [NewCognitoAuth]. *)
Record cognitoAuth : Type :=
  { client : cognito.Client P;
    clientId : string;
    userPoolId : string;
    jwtVerify : jwt_verify.JWTVerify }.

Definition NewCognitoAuth (cognito : cognito.Client P) (clientId : string)
    (jwtVerify : jwt_verify.JWTVerify) (userPoolId : string) : cognitoAuth :=
  {| client := cognito;
     clientId := clientId;
     jwtVerify := jwtVerify;
     userPoolId := userPoolId |}.

Definition Login (c : cognitoAuth) (input : auth.LoginInput.t)
  : M (option auth.LoginOutput.t * option error) :=
  let initiateAuthInput :=
    {| cognito.InitiateAuthInput.AuthFlow := "USER_PASSWORD_AUTH";
       cognito.InitiateAuthInput.AuthParameters :=
         <["PASSWORD" := auth.LoginInput.Password input]>
           (<["USERNAME" := auth.LoginInput.Username input]> ∅);
       cognito.InitiateAuthInput.ClientId := aws.String (clientId c) |} in
  let* r := invoke (cognito.InitiateAuth (client c)) cognito.CallInitiateAuth
         initiateAuthInput in
  match r with
  | cognito.Failure errorType =>
      if strings.Contains errorType "NotAuthorizedException" then
        ret (None, Some (NewApiError 401 "Invalid username or password"))
      else if strings.Contains errorType "PasswordResetRequiredException" then
        ret (None, Some (NewApiError 401 "Password reset required"))
      else if strings.Contains errorType "UserNotConfirmedException" then
        ret (None, Some (NewApiError 401 "User not confirmed"))
      else
        let* _ := logger_Error "Cognito login error" (ClientError errorType) in
        ret (None, Some (ClientError errorType))
  | cognito.Success cognitoOut =>
      let* result := deref (cognito.InitiateAuthOutput.AuthenticationResult
                         cognitoOut) in
      let* accessToken := deref (types.AuthenticationResultType.AccessToken
                              result) in
      let* refreshToken := deref (types.AuthenticationResultType.RefreshToken
                               result) in
      let* idToken := deref (types.AuthenticationResultType.IdToken result) in
      ret (Some {| auth.LoginOutput.AccessToken := accessToken;
                   auth.LoginOutput.RefreshToken := refreshToken;
                   auth.LoginOutput.IdToken := idToken |},
           None)
  end.

Definition AddGroup (c : cognitoAuth) (input : auth.AddGroupInput.t)
  : M (option error) :=
  let addUserToGroupInput :=
    {| cognito.AdminAddUserToGroupInput.UserPoolId :=
         aws.String (userPoolId c);
       cognito.AdminAddUserToGroupInput.Username :=
         aws.String (auth.AddGroupInput.Username input);
       cognito.AdminAddUserToGroupInput.GroupName :=
         aws.String (auth.AddGroupInput.GroupName input) |} in
  let* r := invoke (cognito.AdminAddUserToGroup (client c))
         cognito.CallAdminAddUserToGroup addUserToGroupInput in
  match r with
  | cognito.Failure errorType =>
      if strings.Contains errorType "UserNotFoundException" then
        ret (Some (NewApiError 404 "User not found"))
      else if strings.Contains errorType "ResourceNotFoundException" then
        ret (Some (NewApiError 404 "Group not found"))
      else
        let* _ := logger_Error "Cognito add group error" (ClientError errorType) in
        ret (Some (ClientError errorType))
  | cognito.Success _ => ret None
  end.

Definition RemoveGroup (c : cognitoAuth) (input : auth.RemoveGroupInput.t)
  : M (option error) :=
  let removeUserFromGroupInput :=
    {| cognito.AdminRemoveUserFromGroupInput.UserPoolId :=
         aws.String (userPoolId c);
       cognito.AdminRemoveUserFromGroupInput.Username :=
         aws.String (auth.RemoveGroupInput.Username input);
       cognito.AdminRemoveUserFromGroupInput.GroupName :=
         aws.String (auth.RemoveGroupInput.GroupName input) |} in
  let* r := invoke (cognito.AdminRemoveUserFromGroup (client c))
         cognito.CallAdminRemoveUserFromGroup removeUserFromGroupInput in
  match r with
  | cognito.Failure errorType =>
      if strings.Contains errorType "UserNotFoundException" then
        ret (Some (NewApiError 404 "User not found"))
      else if strings.Contains errorType "ResourceNotFoundException" then
        ret (Some (NewApiError 404 "Group not found"))
      else
        let* _ := logger_Error "Cognito remove group error" (ClientError errorType) in
        ret (Some (ClientError errorType))
  | cognito.Success _ => ret None
  end.

Definition SignUp (c : cognitoAuth) (input : auth.SignUpInput.t)
  : M (option auth.SignUpOutput.t * option error) :=
  let signUpInput :=
    {| cognito.SignUpInput.ClientId := aws.String (clientId c);
       cognito.SignUpInput.Username :=
         aws.String (auth.SignUpInput.Username input);
       cognito.SignUpInput.Password :=
         aws.String (auth.SignUpInput.Password input);
       cognito.SignUpInput.UserAttributes :=
         [ {| types.AttributeType.Name := aws.String "email";
              types.AttributeType.Value :=
                aws.String (auth.SignUpInput.Username input) |};
           {| types.AttributeType.Name := aws.String "name";
              types.AttributeType.Value :=
                aws.String (auth.SignUpInput.Name input) |} ] |} in
  let* r := invoke (cognito.SignUp (client c)) cognito.CallSignUp signUpInput in
  match r with
  | cognito.Failure errorType =>
      if strings.Contains errorType "UsernameExistsException" then
        ret (None, Some (NewApiError 409 "Username already exists"))
      else
        let* _ := logger_Error "Cognito signup error" (ClientError errorType) in
        ret (None, Some (ClientError errorType))
  | cognito.Success cognitoOut =>
      let* err := AddGroup c
               {| auth.AddGroupInput.Username :=
                    auth.SignUpInput.Username input;
                  auth.AddGroupInput.GroupName := auth.User |} in
      match err with
      | Some e => ret (None, Some e)
      | None =>
          ret (Some {| auth.SignUpOutput.IsConfirmed :=
                         cognito.SignUpOutput.UserConfirmed cognitoOut |},
               None)
      end
  end.

Definition ConfirmSignUp (c : cognitoAuth) (input : auth.ConfirmSignUpInput.t)
  : M (option auth.ConfirmSignUpOutput.t * option error) :=
  let confirmSignUp :=
    {| cognito.ConfirmSignUpInput.ClientId := aws.String (clientId c);
       cognito.ConfirmSignUpInput.Username :=
         aws.String (auth.ConfirmSignUpInput.Username input);
       cognito.ConfirmSignUpInput.ConfirmationCode :=
         aws.String (auth.ConfirmSignUpInput.Code input) |} in
  let* r := invoke (cognito.ConfirmSignUp (client c))
              cognito.CallConfirmSignUp confirmSignUp in
  match r with
  | cognito.Failure errorType =>
      if strings.Contains errorType "CodeMismatchException" then
        ret (None, Some (NewApiError 400 "Invalid confirmation code"))
      else if strings.Contains errorType "ExpiredCodeException" then
        ret (None, Some (NewApiError 400 "Confirmation code expired"))
      else
        let* _ := logger_Error "Cognito confirm signup error"
                    (ClientError errorType) in
        ret (None, Some (ClientError errorType))
  | cognito.Success _ => ret (Some auth.ConfirmSignUpOutput.Build_t, None)
  end.

Definition GetUser (c : cognitoAuth) (input : auth.GetUserInput.t)
  : M (option auth.GetUserOutput.t * option error) :=
  let getUserInput :=
    {| cognito.GetUserInput.AccessToken :=
         Some (auth.GetUserInput.AccessToken input) |} in
  let* r := invoke (cognito.GetUser (client c)) cognito.CallGetUser
              getUserInput in
  match r with
  | cognito.Failure errorType =>
      if strings.Contains errorType "NotAuthorizedException" then
        ret (None, Some (NewApiError 401 "Invalid access token"))
      else if strings.Contains errorType "UserNotFoundException" then
        ret (None, Some (NewApiError 404 "User not found"))
      else
        let* _ := logger_Error "Cognito get user error"
                    (ClientError errorType) in
        ret (None, Some (ClientError errorType))
  | cognito.Success cognitoOut =>
      let* username := deref (cognito.GetUserOutput.Username cognitoOut) in
      let* attribute :=
        index0 (cognito.GetUserOutput.UserAttributes cognitoOut) in
      let* name := deref (types.AttributeType.Value attribute) in
      ret (Some {| auth.GetUserOutput.Username := username;
                   auth.GetUserOutput.Name := name |},
           None)
  end.

Definition ValidateToken (c : cognitoAuth) (token : string)
  : M (option auth.Claims.t * option error) :=
  let '(_, claims, err) := jwt_verify.ParseJWT (jwtVerify c) token in
  match err with
  | Some e => ret (None, Some e)
  | None =>
      ret (Some {| auth.Claims.Email := jwt_verify.Claims.Email claims;
                   auth.Claims.Id := jwt_verify.Claims.Sub claims;
                   auth.Claims.UserGroups :=
                     jwt_verify.Claims.UserGroups claims |},
           None)
  end.

Definition RefreshToken (c : cognitoAuth) (input : auth.RefreshTokenInput.t)
  : M (option auth.RefreshTokenOutput.t * option error) :=
  let refreshTokenInput :=
    {| cognito.InitiateAuthInput.AuthFlow := "REFRESH_TOKEN_AUTH";
       cognito.InitiateAuthInput.AuthParameters :=
         <["REFRESH_TOKEN" := auth.RefreshTokenInput.RefreshToken input]> ∅;
       cognito.InitiateAuthInput.ClientId := aws.String (clientId c) |} in
  let* r := invoke (cognito.InitiateAuth (client c)) cognito.CallInitiateAuth
              refreshTokenInput in
  match r with
  | cognito.Failure errorType =>
      if strings.Contains errorType "NotAuthorizedException" then
        ret (None, Some (NewApiError 401 "Invalid refresh token"))
      else
        let* _ := logger_Error "Cognito refresh token error"
                    (ClientError errorType) in
        ret (None, Some (ClientError errorType))
  | cognito.Success cognitoOut =>
      let* result := deref (cognito.InitiateAuthOutput.AuthenticationResult
                              cognitoOut) in
      let* accessToken :=
        deref (types.AuthenticationResultType.AccessToken result) in
      let* idToken :=
        deref (types.AuthenticationResultType.IdToken result) in
      ret (Some {| auth.RefreshTokenOutput.AccessToken := accessToken;
                   auth.RefreshTokenOutput.IdToken := idToken |},
           None)
  end.

Definition CreateAdmin (c : cognitoAuth) (input : auth.CreateAdminInput.t)
  : M (option auth.CreateAdminOutput.t * option error) :=
  let createUserInput :=
    {| cognito.AdminCreateUserInput.UserPoolId := aws.String (userPoolId c);
       cognito.AdminCreateUserInput.Username :=
         aws.String (auth.CreateAdminInput.Username input);
       cognito.AdminCreateUserInput.UserAttributes :=
         [ {| types.AttributeType.Name := aws.String "email";
              types.AttributeType.Value :=
                aws.String (auth.CreateAdminInput.Username input) |};
           {| types.AttributeType.Name := aws.String "name";
              types.AttributeType.Value :=
                aws.String (auth.CreateAdminInput.Name input) |} ];
       cognito.AdminCreateUserInput.TemporaryPassword :=
         aws.String (auth.CreateAdminInput.Password input);
       cognito.AdminCreateUserInput.DesiredDeliveryMediums :=
         [ types.DeliveryMediumTypeEmail ];
       cognito.AdminCreateUserInput.ForceAliasCreation := true |} in
  let* r := invoke (cognito.AdminCreateUser (client c))
              cognito.CallAdminCreateUser createUserInput in
  match r with
  | cognito.Failure errorType =>
      if strings.Contains errorType "UsernameExistsException" then
        ret (None, Some (NewApiError 409 "Username already exists"))
      else
        let* _ := logger_Error "Cognito admin create user error"
                    (ClientError errorType) in
        ret (None, Some (ClientError errorType))
  | cognito.Success _ =>
      let* err := AddGroup c
                    {| auth.AddGroupInput.Username :=
                         auth.CreateAdminInput.Username input;
                       auth.AddGroupInput.GroupName := auth.Admin |} in
      match err with
      | Some e => ret (None, Some e)
      | None =>
          ret (Some {| auth.CreateAdminOutput.Username :=
                         auth.CreateAdminInput.Username input |},
               None)
      end
  end.

(** *** The requests the operations send

    The request each operation builds before it calls the provider, written
    out once more so that statements can name it. *)

Definition login_request (c : cognitoAuth) (input : auth.LoginInput.t)
  : cognito.InitiateAuthInput.t :=
  {| cognito.InitiateAuthInput.AuthFlow := "USER_PASSWORD_AUTH";
     cognito.InitiateAuthInput.AuthParameters :=
       <["PASSWORD" := auth.LoginInput.Password input]>
         (<["USERNAME" := auth.LoginInput.Username input]> ∅);
     cognito.InitiateAuthInput.ClientId := Some (clientId c) |}.

Definition refresh_request (c : cognitoAuth)
    (input : auth.RefreshTokenInput.t) : cognito.InitiateAuthInput.t :=
  {| cognito.InitiateAuthInput.AuthFlow := "REFRESH_TOKEN_AUTH";
     cognito.InitiateAuthInput.AuthParameters :=
       <["REFRESH_TOKEN" := auth.RefreshTokenInput.RefreshToken input]> ∅;
     cognito.InitiateAuthInput.ClientId := Some (clientId c) |}.

Definition identity_attributes (username name : string)
  : list types.AttributeType.t :=
  [ {| types.AttributeType.Name := Some "email";
       types.AttributeType.Value := Some username |};
    {| types.AttributeType.Name := Some "name";
       types.AttributeType.Value := Some name |} ].

Definition signup_request (c : cognitoAuth) (input : auth.SignUpInput.t)
  : cognito.SignUpInput.t :=
  {| cognito.SignUpInput.ClientId := Some (clientId c);
     cognito.SignUpInput.Username := Some (auth.SignUpInput.Username input);
     cognito.SignUpInput.Password := Some (auth.SignUpInput.Password input);
     cognito.SignUpInput.UserAttributes :=
       identity_attributes (auth.SignUpInput.Username input)
         (auth.SignUpInput.Name input) |}.

Definition confirm_request (c : cognitoAuth)
    (input : auth.ConfirmSignUpInput.t) : cognito.ConfirmSignUpInput.t :=
  {| cognito.ConfirmSignUpInput.ClientId := Some (clientId c);
     cognito.ConfirmSignUpInput.Username :=
       Some (auth.ConfirmSignUpInput.Username input);
     cognito.ConfirmSignUpInput.ConfirmationCode :=
       Some (auth.ConfirmSignUpInput.Code input) |}.

Definition getuser_request (input : auth.GetUserInput.t)
  : cognito.GetUserInput.t :=
  {| cognito.GetUserInput.AccessToken :=
       Some (auth.GetUserInput.AccessToken input) |}.

Definition addgroup_request (c : cognitoAuth) (username : string)
    (group : auth.UserGroup) : cognito.AdminAddUserToGroupInput.t :=
  {| cognito.AdminAddUserToGroupInput.UserPoolId := Some (userPoolId c);
     cognito.AdminAddUserToGroupInput.Username := Some username;
     cognito.AdminAddUserToGroupInput.GroupName := Some group |}.

Definition removegroup_request (c : cognitoAuth) (username : string)
    (group : auth.UserGroup) : cognito.AdminRemoveUserFromGroupInput.t :=
  {| cognito.AdminRemoveUserFromGroupInput.UserPoolId :=
       Some (userPoolId c);
     cognito.AdminRemoveUserFromGroupInput.Username := Some username;
     cognito.AdminRemoveUserFromGroupInput.GroupName := Some group |}.

Definition createadmin_request (c : cognitoAuth)
    (input : auth.CreateAdminInput.t) : cognito.AdminCreateUserInput.t :=
  {| cognito.AdminCreateUserInput.UserPoolId := Some (userPoolId c);
     cognito.AdminCreateUserInput.Username :=
       Some (auth.CreateAdminInput.Username input);
     cognito.AdminCreateUserInput.UserAttributes :=
       identity_attributes (auth.CreateAdminInput.Username input)
         (auth.CreateAdminInput.Name input);
     cognito.AdminCreateUserInput.TemporaryPassword :=
       Some (auth.CreateAdminInput.Password input);
     cognito.AdminCreateUserInput.DesiredDeliveryMediums :=
       [ types.DeliveryMediumTypeEmail ];
     cognito.AdminCreateUserInput.ForceAliasCreation := true |}.

(** The world once [call] has been sent and the provider is in [p']. *)
Definition after_call (w : World) (call : cognito.Call) (p' : P) : World :=
  {| provider := p'; calls := calls w ++ [call]; logged := logged w |}.

(** The world once [msg] and [err] have been logged. *)
Definition after_log (w : World) (msg : string) (err : error) : World :=
  {| provider := provider w;
     calls := calls w;
     logged := logged w ++ [(msg, err)] |}.

(** The requests a computation sends when it is run in [w]. *)
Definition issued {A : Type} (m : M A) (w : World) : list cognito.Call :=
  drop (List.length (calls w)) (calls (snd (m w))).

(** *** The operations as one family *)

Inductive Operation : Type :=
| OpLogin (input : auth.LoginInput.t)
| OpSignUp (input : auth.SignUpInput.t)
| OpConfirmSignUp (input : auth.ConfirmSignUpInput.t)
| OpGetUser (input : auth.GetUserInput.t)
| OpRefreshToken (input : auth.RefreshTokenInput.t)
| OpAddGroup (input : auth.AddGroupInput.t)
| OpRemoveGroup (input : auth.RemoveGroupInput.t)
| OpCreateAdmin (input : auth.CreateAdminInput.t).

(** Whether a result pair carries an output, and its error. *)
Definition summary {A : Type} (r : option A * option error)
  : bool * option error :=
  (bool_decide (is_Some (fst r)), snd r).

(** Runs an operation and keeps whether an output came back and the error.
    [AddGroup] and [RemoveGroup] have no output. *)
Definition perform (c : cognitoAuth) (op : Operation)
  : M (bool * option error) :=
  match op with
  | OpLogin input => let* r := Login c input in ret (summary r)
  | OpSignUp input => let* r := SignUp c input in ret (summary r)
  | OpConfirmSignUp input =>
      let* r := ConfirmSignUp c input in ret (summary r)
  | OpGetUser input => let* r := GetUser c input in ret (summary r)
  | OpRefreshToken input =>
      let* r := RefreshToken c input in ret (summary r)
  | OpAddGroup input => let* e := AddGroup c input in ret (false, e)
  | OpRemoveGroup input => let* e := RemoveGroup c input in ret (false, e)
  | OpCreateAdmin input => let* r := CreateAdmin c input in ret (summary r)
  end.

(** The substrings of the provider's error text that an operation turns
    into typed domain errors, in the order it tests them. *)
Definition allow_list (op : Operation) : list string :=
  match op with
  | OpLogin _ =>
      [ "NotAuthorizedException"; "PasswordResetRequiredException";
        "UserNotConfirmedException" ]
  | OpSignUp _ => [ "UsernameExistsException" ]
  | OpConfirmSignUp _ => [ "CodeMismatchException"; "ExpiredCodeException" ]
  | OpGetUser _ => [ "NotAuthorizedException"; "UserNotFoundException" ]
  | OpRefreshToken _ => [ "NotAuthorizedException" ]
  | OpAddGroup _ => [ "UserNotFoundException"; "ResourceNotFoundException" ]
  | OpRemoveGroup _ =>
      [ "UserNotFoundException"; "ResourceNotFoundException" ]
  | OpCreateAdmin _ => [ "UsernameExistsException" ]
  end.

(** [text] contains none of the operation's substrings. *)
Definition unlisted (op : Operation) (text : string) : bool :=
  forallb (fun marker => negb (strings.Contains text marker)) (allow_list op).

(** The message an operation logs with a failure it does not classify. *)
Definition log_message (op : Operation) : string :=
  match op with
  | OpLogin _ => "Cognito login error"
  | OpSignUp _ => "Cognito signup error"
  | OpConfirmSignUp _ => "Cognito confirm signup error"
  | OpGetUser _ => "Cognito get user error"
  | OpRefreshToken _ => "Cognito refresh token error"
  | OpAddGroup _ => "Cognito add group error"
  | OpRemoveGroup _ => "Cognito remove group error"
  | OpCreateAdmin _ => "Cognito admin create user error"
  end.

Definition failure_text {A : Type} (r : cognito.Response A)
  : option string :=
  match r with
  | cognito.Failure text => Some text
  | cognito.Success _ => None
  end.

(** The error text, if any, with which the provider in state [p] answers
    the operation's own call (for [SignUp] and [CreateAdmin]: the call that
    creates the identity). *)
Definition own_call_failure (c : cognitoAuth) (op : Operation) (p : P)
  : option string :=
  match op with
  | OpLogin input =>
      failure_text
        (snd (cognito.InitiateAuth (client c) (login_request c input) p))
  | OpSignUp input =>
      failure_text
        (snd (cognito.SignUp (client c) (signup_request c input) p))
  | OpConfirmSignUp input =>
      failure_text
        (snd (cognito.ConfirmSignUp (client c) (confirm_request c input) p))
  | OpGetUser input =>
      failure_text
        (snd (cognito.GetUser (client c) (getuser_request input) p))
  | OpRefreshToken input =>
      failure_text
        (snd (cognito.InitiateAuth (client c) (refresh_request c input) p))
  | OpAddGroup input =>
      failure_text
        (snd (cognito.AdminAddUserToGroup (client c)
                (addgroup_request c (auth.AddGroupInput.Username input)
                   (auth.AddGroupInput.GroupName input)) p))
  | OpRemoveGroup input =>
      failure_text
        (snd (cognito.AdminRemoveUserFromGroup (client c)
                (removegroup_request c
                   (auth.RemoveGroupInput.Username input)
                   (auth.RemoveGroupInput.GroupName input)) p))
  | OpCreateAdmin input =>
      failure_text
        (snd (cognito.AdminCreateUser (client c)
                (createadmin_request c input) p))
  end.

(** The username a request carries. *)
Definition call_username (call : cognito.Call) : option string :=
  match call with
  | cognito.CallInitiateAuth input =>
      cognito.InitiateAuthInput.AuthParameters input !! "USERNAME"
  | cognito.CallSignUp input => cognito.SignUpInput.Username input
  | cognito.CallConfirmSignUp input =>
      cognito.ConfirmSignUpInput.Username input
  | cognito.CallGetUser _ => None
  | cognito.CallAdminAddUserToGroup input =>
      cognito.AdminAddUserToGroupInput.Username input
  | cognito.CallAdminRemoveUserFromGroup input =>
      cognito.AdminRemoveUserFromGroupInput.Username input
  | cognito.CallAdminCreateUser input =>
      cognito.AdminCreateUserInput.Username input
  end.

End Service.

Arguments World P : clear implicits.
Arguments M P A : clear implicits.
Arguments cognitoAuth P : clear implicits.

(** The message [Login] gives for a failure text that contains at least one
    of its three substrings: the first one found, in the order tested. *)
Definition login_failure_message (text : string) : string :=
  if strings.Contains text "NotAuthorizedException" then
    "Invalid username or password"
  else if strings.Contains text "PasswordResetRequiredException" then
    "Password reset required"
  else "User not confirmed".

(** The message [AddGroup] and [RemoveGroup] give for a failure text that
    contains at least one of their two substrings. *)
Definition group_failure_message (text : string) : string :=
  if strings.Contains text "UserNotFoundException" then "User not found"
  else "Group not found".

End auth_cognito.

(** ** Stand-ins for the provider and the verifier

    Two clients on which the service can be run: one that answers from a
    script, and a small directory of identities and groups. *)

Module fake.

Import app_error.

(** The response scripted for each method. *)
Record Script : Type :=
  { onInitiateAuth : cognito.Response cognito.InitiateAuthOutput.t;
    onSignUp : cognito.Response cognito.SignUpOutput.t;
    onConfirmSignUp : cognito.Response cognito.ConfirmSignUpOutput.t;
    onGetUser : cognito.Response cognito.GetUserOutput.t;
    onAdminAddUserToGroup :
      cognito.Response cognito.AdminAddUserToGroupOutput.t;
    onAdminRemoveUserFromGroup :
      cognito.Response cognito.AdminRemoveUserFromGroupOutput.t;
    onAdminCreateUser : cognito.Response cognito.AdminCreateUserOutput.t }.

(** The client that answers every request from the script. *)
Definition scripted : cognito.Client Script :=
  {| cognito.InitiateAuth := fun _ s => (s, onInitiateAuth s);
     cognito.SignUp := fun _ s => (s, onSignUp s);
     cognito.ConfirmSignUp := fun _ s => (s, onConfirmSignUp s);
     cognito.GetUser := fun _ s => (s, onGetUser s);
     cognito.AdminAddUserToGroup := fun _ s => (s, onAdminAddUserToGroup s);
     cognito.AdminRemoveUserFromGroup :=
       fun _ s => (s, onAdminRemoveUserFromGroup s);
     cognito.AdminCreateUser := fun _ s => (s, onAdminCreateUser s) |}.

(** The script in which every method fails with [text]. *)
Definition failing (text : string) : Script :=
  {| onInitiateAuth := cognito.Failure text;
     onSignUp := cognito.Failure text;
     onConfirmSignUp := cognito.Failure text;
     onGetUser := cognito.Failure text;
     onAdminAddUserToGroup := cognito.Failure text;
     onAdminRemoveUserFromGroup := cognito.Failure text;
     onAdminCreateUser := cognito.Failure text |}.

(** The script in which [InitiateAuth] and [GetUser] answer as given and
    the other methods succeed. *)
Definition answering
    (initiateAuth : cognito.Response cognito.InitiateAuthOutput.t)
    (getUser : cognito.Response cognito.GetUserOutput.t) : Script :=
  {| onInitiateAuth := initiateAuth;
     onSignUp :=
       cognito.Success {| cognito.SignUpOutput.UserConfirmed := false;
                          cognito.SignUpOutput.UserSub := None |};
     onConfirmSignUp := cognito.Success cognito.ConfirmSignUpOutput.Build_t;
     onGetUser := getUser;
     onAdminAddUserToGroup :=
       cognito.Success cognito.AdminAddUserToGroupOutput.Build_t;
     onAdminRemoveUserFromGroup :=
       cognito.Success cognito.AdminRemoveUserFromGroupOutput.Build_t;
     onAdminCreateUser :=
       cognito.Success cognito.AdminCreateUserOutput.Build_t |}.

(** A verifier that accepts the one token ["good"]. *)
Definition verifier : jwt_verify.JWTVerify :=
  {| jwt_verify.ParseJWT := fun token =>
       if String.eqb token "good" then
         (tt,
          {| jwt_verify.Claims.Email := "ada@example.org";
             jwt_verify.Claims.Sub := "sub-1";
             jwt_verify.Claims.UserGroups := [ "A"; "B" ] |},
          None)
       else
         (tt,
          {| jwt_verify.Claims.Email := "";
             jwt_verify.Claims.Sub := "";
             jwt_verify.Claims.UserGroups := [] |},
          Some (NewApiError 401 "Unauthorized")) |}.

Definition service : auth_cognito.cognitoAuth Script :=
  auth_cognito.NewCognitoAuth scripted "client-1" verifier "pool-1".

(** The world in which nothing has been sent or logged yet. *)
Definition fresh {P : Type} (p : P) : auth_cognito.World P :=
  {| auth_cognito.provider := p;
     auth_cognito.calls := [];
     auth_cognito.logged := [] |}.

(** A directory: the groups of each identity, and the groups that exist. *)
Record Directory : Type :=
  { users : gmap string (list string);
    groups : list string }.

Definition create_identity (username : option string) (d : Directory)
  : Directory * option string :=
  match username with
  | None => (d, Some "InvalidParameterException: username is required")
  | Some u =>
      match users d !! u with
      | Some _ => (d, Some "UsernameExistsException: User already exists")
      | None => ({| users := <[u := []]> (users d); groups := groups d |},
                 None)
      end
  end.

Definition change_groups (f : string -> list string -> list string)
    (username group : option string) (d : Directory)
  : Directory * option string :=
  match username, group with
  | Some u, Some g =>
      match users d !! u with
      | None => (d, Some "UserNotFoundException: User does not exist.")
      | Some gs =>
          if existsb (String.eqb g) (groups d) then
            ({| users := <[u := f g gs]> (users d); groups := groups d |},
             None)
          else (d, Some "ResourceNotFoundException: Group not found.")
      end
  | _, _ => (d, Some "InvalidParameterException: missing parameter")
  end.

Definition respond {A : Type} (out : A) (r : Directory * option string)
  : Directory * cognito.Response A :=
  match r with
  | (d, None) => (d, cognito.Success out)
  | (d, Some text) => (d, cognito.Failure text)
  end.

(** The directory as a client; it keeps no credentials, so the methods
    that need them fail. *)
Definition directory : cognito.Client Directory :=
  {| cognito.InitiateAuth := fun _ d =>
       (d, cognito.Failure "NotAuthorizedException: no credentials kept");
     cognito.SignUp := fun input d =>
       respond {| cognito.SignUpOutput.UserConfirmed := false;
                  cognito.SignUpOutput.UserSub := None |}
         (create_identity (cognito.SignUpInput.Username input) d);
     cognito.ConfirmSignUp := fun _ d =>
       (d, cognito.Failure "NotAuthorizedException: no credentials kept");
     cognito.GetUser := fun _ d =>
       (d, cognito.Failure "NotAuthorizedException: no credentials kept");
     cognito.AdminAddUserToGroup := fun input d =>
       respond cognito.AdminAddUserToGroupOutput.Build_t
         (change_groups (fun g gs => g :: gs)
            (cognito.AdminAddUserToGroupInput.Username input)
            (cognito.AdminAddUserToGroupInput.GroupName input) d);
     cognito.AdminRemoveUserFromGroup := fun input d =>
       respond cognito.AdminRemoveUserFromGroupOutput.Build_t
         (change_groups
            (fun g gs => filter (fun h => negb (String.eqb g h)) gs)
            (cognito.AdminRemoveUserFromGroupInput.Username input)
            (cognito.AdminRemoveUserFromGroupInput.GroupName input) d);
     cognito.AdminCreateUser := fun input d =>
       respond cognito.AdminCreateUserOutput.Build_t
         (create_identity (cognito.AdminCreateUserInput.Username input) d) |}.

Definition directory_service : auth_cognito.cognitoAuth Directory :=
  auth_cognito.NewCognitoAuth directory "client-1" verifier "pool-1".

(** A directory with no identity in which only the group [Admin] exists. *)
Definition admins_only : Directory :=
  {| users := ∅; groups := [ "Admin" ] |}.

End fake.

(** ** What requests and texts show *)

Module observe.

Import app_error.

(** The error [AddGroup] returns for a failure text of its provider call. *)
Definition group_failure_error (text : string) : error :=
  if strings.Contains text "UserNotFoundException" then
    ApiError 404 "User not found"
  else if strings.Contains text "ResourceNotFoundException" then
    ApiError 404 "Group not found"
  else ClientError text.

(** What [AddGroup] logs for that text: the failures it does not classify. *)
Definition group_failure_log (text : string) : list (string * error) :=
  if strings.Contains text "UserNotFoundException" then []
  else if strings.Contains text "ResourceNotFoundException" then []
  else [ ("Cognito add group error", ClientError text) ].

(** The app-client id a request carries. *)
Definition call_client_id (call : cognito.Call) : option string :=
  match call with
  | cognito.CallInitiateAuth input => cognito.InitiateAuthInput.ClientId input
  | cognito.CallSignUp input => cognito.SignUpInput.ClientId input
  | cognito.CallConfirmSignUp input =>
      cognito.ConfirmSignUpInput.ClientId input
  | _ => None
  end.

(** The user-pool id a request carries. *)
Definition call_pool_id (call : cognito.Call) : option string :=
  match call with
  | cognito.CallAdminAddUserToGroup input =>
      cognito.AdminAddUserToGroupInput.UserPoolId input
  | cognito.CallAdminRemoveUserFromGroup input =>
      cognito.AdminRemoveUserFromGroupInput.UserPoolId input
  | cognito.CallAdminCreateUser input =>
      cognito.AdminCreateUserInput.UserPoolId input
  | _ => None
  end.

(** The administrative requests: those made with the service's own
    credentials on a user pool. *)
Definition is_admin_call (call : cognito.Call) : bool :=
  match call with
  | cognito.CallAdminAddUserToGroup _
  | cognito.CallAdminRemoveUserFromGroup _
  | cognito.CallAdminCreateUser _ => true
  | _ => false
  end.

(** The identifiers a request must carry, for a service made with app
    client [clientId] and pool [userPoolId]: the pool alone on an
    administrative request, nothing on [GetUser] (the access token names
    the user), the app client alone on the others. *)
Definition addressed (clientId userPoolId : string) (call : cognito.Call)
  : bool :=
  match call with
  | cognito.CallGetUser _ =>
      bool_decide (call_client_id call = None)
      && bool_decide (call_pool_id call = None)
  | _ =>
      if is_admin_call call then
        bool_decide (call_pool_id call = Some userPoolId)
        && bool_decide (call_client_id call = None)
      else
        bool_decide (call_client_id call = Some clientId)
        && bool_decide (call_pool_id call = None)
  end.

(** The request of an operation's own provider call (for [SignUp] and
    [CreateAdmin]: the call that creates the identity). *)
Definition own_request {P : Type} (c : auth_cognito.cognitoAuth P)
    (op : auth_cognito.Operation) : cognito.Call :=
  match op with
  | auth_cognito.OpLogin input =>
      cognito.CallInitiateAuth (auth_cognito.login_request c input)
  | auth_cognito.OpSignUp input =>
      cognito.CallSignUp (auth_cognito.signup_request c input)
  | auth_cognito.OpConfirmSignUp input =>
      cognito.CallConfirmSignUp (auth_cognito.confirm_request c input)
  | auth_cognito.OpGetUser input =>
      cognito.CallGetUser (auth_cognito.getuser_request input)
  | auth_cognito.OpRefreshToken input =>
      cognito.CallInitiateAuth (auth_cognito.refresh_request c input)
  | auth_cognito.OpAddGroup input =>
      cognito.CallAdminAddUserToGroup
        (auth_cognito.addgroup_request c (auth.AddGroupInput.Username input)
           (auth.AddGroupInput.GroupName input))
  | auth_cognito.OpRemoveGroup input =>
      cognito.CallAdminRemoveUserFromGroup
        (auth_cognito.removegroup_request c
           (auth.RemoveGroupInput.Username input)
           (auth.RemoveGroupInput.GroupName input))
  | auth_cognito.OpCreateAdmin input =>
      cognito.CallAdminCreateUser (auth_cognito.createadmin_request c input)
  end.

(** The group assignment that [SignUp] and [CreateAdmin] request after a
    creation that succeeded: the username of the input, in the group [User]
    for [SignUp] and [Admin] for [CreateAdmin]. The other operations have
    none. *)
Definition group_request {P : Type} (c : auth_cognito.cognitoAuth P)
    (op : auth_cognito.Operation)
  : option cognito.AdminAddUserToGroupInput.t :=
  match op with
  | auth_cognito.OpSignUp input =>
      Some (auth_cognito.addgroup_request c
              (auth.SignUpInput.Username input) auth.User)
  | auth_cognito.OpCreateAdmin input =>
      Some (auth_cognito.addgroup_request c
              (auth.CreateAdminInput.Username input) auth.Admin)
  | _ => None
  end.

(** The provider's state after the operation's own call, when that call
    succeeds. *)
Definition state_after_own_call {P : Type} (c : auth_cognito.cognitoAuth P)
    (op : auth_cognito.Operation) (p : P) : option P :=
  let client := auth_cognito.client c in
  let succeeded {A : Type} (r : P * cognito.Response A) : option P :=
    match r with
    | (p1, cognito.Success _) => Some p1
    | (_, cognito.Failure _) => None
    end in
  match op with
  | auth_cognito.OpLogin input =>
      succeeded
        (cognito.InitiateAuth client (auth_cognito.login_request c input) p)
  | auth_cognito.OpSignUp input =>
      succeeded
        (cognito.SignUp client (auth_cognito.signup_request c input) p)
  | auth_cognito.OpConfirmSignUp input =>
      succeeded
        (cognito.ConfirmSignUp client
           (auth_cognito.confirm_request c input) p)
  | auth_cognito.OpGetUser input =>
      succeeded
        (cognito.GetUser client (auth_cognito.getuser_request input) p)
  | auth_cognito.OpRefreshToken input =>
      succeeded
        (cognito.InitiateAuth client
           (auth_cognito.refresh_request c input) p)
  | auth_cognito.OpAddGroup input =>
      succeeded
        (cognito.AdminAddUserToGroup client
           (auth_cognito.addgroup_request c
              (auth.AddGroupInput.Username input)
              (auth.AddGroupInput.GroupName input)) p)
  | auth_cognito.OpRemoveGroup input =>
      succeeded
        (cognito.AdminRemoveUserFromGroup client
           (auth_cognito.removegroup_request c
              (auth.RemoveGroupInput.Username input)
              (auth.RemoveGroupInput.GroupName input)) p)
  | auth_cognito.OpCreateAdmin input =>
      succeeded
        (cognito.AdminCreateUser client
           (auth_cognito.createadmin_request c input) p)
  end.

(** The error text, if any, with which the provider answers the group
    assignment of [SignUp] or [CreateAdmin]: there is one only when the
    creation succeeded, and the group request then meets the provider in
    the state the creation left. *)
Definition group_call_failure {P : Type} (c : auth_cognito.cognitoAuth P)
    (op : auth_cognito.Operation) (p : P) : option string :=
  match group_request c op, state_after_own_call c op p with
  | Some request, Some p1 =>
      auth_cognito.failure_text
        (snd (cognito.AdminAddUserToGroup (auth_cognito.client c) request p1))
  | _, _ => None
  end.

(** An upper-case ASCII letter. *)
Definition is_upper (a : ascii) : bool :=
  let n := nat_of_ascii a in (Nat.leb 65 n && Nat.leb n 90)%bool.

(** A byte of the ASCII range. *)
Definition is_ascii (a : ascii) : bool := Nat.ltb (nat_of_ascii a) 128.

Fixpoint all_bytes (f : ascii -> bool) (s : string) : bool :=
  match s with
  | EmptyString => true
  | String a s' => f a && all_bytes f s'
  end.

(** Whether an operation has an output next to its error. *)
Definition has_output (op : auth_cognito.Operation) : bool :=
  match op with
  | auth_cognito.OpAddGroup _ | auth_cognito.OpRemoveGroup _ => false
  | _ => true
  end.

(** Whether an operation reads through pointers of the provider's response
    ([Login], [GetUser] and [RefreshToken] do). *)
Definition reads_response (op : auth_cognito.Operation) : bool :=
  match op with
  | auth_cognito.OpLogin _ | auth_cognito.OpGetUser _
  | auth_cognito.OpRefreshToken _ => true
  | _ => false
  end.

(** Whether an operation is one of the two that create an identity and
    then assign a group. *)
Definition is_compound (op : auth_cognito.Operation) : bool :=
  match op with
  | auth_cognito.OpSignUp _ | auth_cognito.OpCreateAdmin _ => true
  | _ => false
  end.

End observe.

(** * Properties of the service *)

Import app_error auth_cognito.

Local Open Scope list_scope.

Section Steps.

Context {P : Type}.

(** A client call followed by its continuation: the call is recorded, the
    provider takes its new state, and the continuation gets the response. *)
Lemma bind_invoke {I O B : Type}
    (method : I -> P -> P * cognito.Response O) (record : I -> cognito.Call)
    (input : I) (k : cognito.Response O -> M P B) (w : World P)
    (p' : P) (r : cognito.Response O) :
  method input (provider w) = (p', r) ->
  bind (invoke method record input) k w = k r (after_call w (record input) p').
Proof.
  intros Hcall. unfold bind, invoke. rewrite Hcall. reflexivity.
Qed.

Lemma bind_ret {A B : Type} (a : A) (k : A -> M P B) (w : World P) :
  bind (ret a) k w = k a w.
Proof. reflexivity. Qed.

Lemma bind_returned {A B : Type} (m : M P A) (k : A -> M P B)
    (w w' : World P) (a : A) :
  m w = (Returned a, w') -> bind m k w = k a w'.
Proof. intros Hm. unfold bind. rewrite Hm. reflexivity. Qed.

Lemma bind_log {B : Type} (msg : string) (err : error)
    (k : unit -> M P B) (w : World P) :
  bind (logger_Error msg err) k w = k tt (after_log w msg err).
Proof. reflexivity. Qed.

Lemma bind_panic {A B : Type} (k : A -> M P B) (w : World P) :
  bind panic k w = (Panicked, w).
Proof. reflexivity. Qed.

Lemma bind_deref_Some {A B : Type} (a : A) (k : A -> M P B) (w : World P) :
  bind (deref (Some a)) k w = k a w.
Proof. reflexivity. Qed.

Lemma bind_deref_None {A B : Type} (k : A -> M P B) (w : World P) :
  bind (deref None) k w = (Panicked, w).
Proof. reflexivity. Qed.

(** The calls sent by a computation that extends the trace by [new]. *)
Lemma issued_app {A : Type} (m : M P A) (w : World P)
    (new : list cognito.Call) :
  calls (snd (m w)) = calls w ++ new -> issued m w = new.
Proof.
  intros Hcalls. unfold issued. rewrite Hcalls.
  rewrite drop_app_length. reflexivity.
Qed.

End Steps.

(** ** What each operation does when its provider call fails *)

Section Failures.

Context {P : Type}.
Variable c : cognitoAuth P.
Variable w : World P.

Ltac failing_call H :=
  erewrite bind_invoke by exact H;
  cbn beta iota;
  repeat match goal with
         | |- context [strings.Contains ?text ?marker] =>
             destruct (strings.Contains text marker)
         end;
  reflexivity.

Lemma Login_failure (input : auth.LoginInput.t) (p' : P) (text : string) :
  cognito.InitiateAuth (client c) (login_request c input) (provider w)
  = (p', cognito.Failure text) ->
  let w' := after_call w (cognito.CallInitiateAuth (login_request c input)) p' in
  Login c input w =
  if strings.Contains text "NotAuthorizedException" then
    (Returned (None, Some (ApiError 401 "Invalid username or password")), w')
  else if strings.Contains text "PasswordResetRequiredException" then
    (Returned (None, Some (ApiError 401 "Password reset required")), w')
  else if strings.Contains text "UserNotConfirmedException" then
    (Returned (None, Some (ApiError 401 "User not confirmed")), w')
  else
    (Returned (None, Some (ClientError text)),
     after_log w' "Cognito login error" (ClientError text)).
Proof. intros Hcall. unfold Login. failing_call Hcall. Qed.

Lemma SignUp_failure (input : auth.SignUpInput.t) (p' : P) (text : string) :
  cognito.SignUp (client c) (signup_request c input) (provider w)
  = (p', cognito.Failure text) ->
  let w' := after_call w (cognito.CallSignUp (signup_request c input)) p' in
  SignUp c input w =
  if strings.Contains text "UsernameExistsException" then
    (Returned (None, Some (ApiError 409 "Username already exists")), w')
  else
    (Returned (None, Some (ClientError text)),
     after_log w' "Cognito signup error" (ClientError text)).
Proof. intros Hcall. unfold SignUp. failing_call Hcall. Qed.

Lemma ConfirmSignUp_failure (input : auth.ConfirmSignUpInput.t) (p' : P)
    (text : string) :
  cognito.ConfirmSignUp (client c) (confirm_request c input) (provider w)
  = (p', cognito.Failure text) ->
  let w' :=
    after_call w (cognito.CallConfirmSignUp (confirm_request c input)) p' in
  ConfirmSignUp c input w =
  if strings.Contains text "CodeMismatchException" then
    (Returned (None, Some (ApiError 400 "Invalid confirmation code")), w')
  else if strings.Contains text "ExpiredCodeException" then
    (Returned (None, Some (ApiError 400 "Confirmation code expired")), w')
  else
    (Returned (None, Some (ClientError text)),
     after_log w' "Cognito confirm signup error" (ClientError text)).
Proof. intros Hcall. unfold ConfirmSignUp. failing_call Hcall. Qed.

Lemma GetUser_failure (input : auth.GetUserInput.t) (p' : P) (text : string) :
  cognito.GetUser (client c) (getuser_request input) (provider w)
  = (p', cognito.Failure text) ->
  let w' := after_call w (cognito.CallGetUser (getuser_request input)) p' in
  GetUser c input w =
  if strings.Contains text "NotAuthorizedException" then
    (Returned (None, Some (ApiError 401 "Invalid access token")), w')
  else if strings.Contains text "UserNotFoundException" then
    (Returned (None, Some (ApiError 404 "User not found")), w')
  else
    (Returned (None, Some (ClientError text)),
     after_log w' "Cognito get user error" (ClientError text)).
Proof. intros Hcall. unfold GetUser. failing_call Hcall. Qed.

Lemma RefreshToken_failure (input : auth.RefreshTokenInput.t) (p' : P)
    (text : string) :
  cognito.InitiateAuth (client c) (refresh_request c input) (provider w)
  = (p', cognito.Failure text) ->
  let w' :=
    after_call w (cognito.CallInitiateAuth (refresh_request c input)) p' in
  RefreshToken c input w =
  if strings.Contains text "NotAuthorizedException" then
    (Returned (None, Some (ApiError 401 "Invalid refresh token")), w')
  else
    (Returned (None, Some (ClientError text)),
     after_log w' "Cognito refresh token error" (ClientError text)).
Proof. intros Hcall. unfold RefreshToken. failing_call Hcall. Qed.

Lemma AddGroup_failure (input : auth.AddGroupInput.t) (p' : P)
    (text : string) :
  let request :=
    addgroup_request c (auth.AddGroupInput.Username input)
      (auth.AddGroupInput.GroupName input) in
  cognito.AdminAddUserToGroup (client c) request (provider w)
  = (p', cognito.Failure text) ->
  let w' := after_call w (cognito.CallAdminAddUserToGroup request) p' in
  AddGroup c input w =
  if strings.Contains text "UserNotFoundException" then
    (Returned (Some (ApiError 404 "User not found")), w')
  else if strings.Contains text "ResourceNotFoundException" then
    (Returned (Some (ApiError 404 "Group not found")), w')
  else
    (Returned (Some (ClientError text)),
     after_log w' "Cognito add group error" (ClientError text)).
Proof. intros request Hcall. unfold AddGroup. failing_call Hcall. Qed.

Lemma RemoveGroup_failure (input : auth.RemoveGroupInput.t) (p' : P)
    (text : string) :
  let request :=
    removegroup_request c (auth.RemoveGroupInput.Username input)
      (auth.RemoveGroupInput.GroupName input) in
  cognito.AdminRemoveUserFromGroup (client c) request (provider w)
  = (p', cognito.Failure text) ->
  let w' := after_call w (cognito.CallAdminRemoveUserFromGroup request) p' in
  RemoveGroup c input w =
  if strings.Contains text "UserNotFoundException" then
    (Returned (Some (ApiError 404 "User not found")), w')
  else if strings.Contains text "ResourceNotFoundException" then
    (Returned (Some (ApiError 404 "Group not found")), w')
  else
    (Returned (Some (ClientError text)),
     after_log w' "Cognito remove group error" (ClientError text)).
Proof. intros request Hcall. unfold RemoveGroup. failing_call Hcall. Qed.

Lemma CreateAdmin_failure (input : auth.CreateAdminInput.t) (p' : P)
    (text : string) :
  cognito.AdminCreateUser (client c) (createadmin_request c input)
    (provider w)
  = (p', cognito.Failure text) ->
  let w' :=
    after_call w (cognito.CallAdminCreateUser (createadmin_request c input))
      p' in
  CreateAdmin c input w =
  if strings.Contains text "UsernameExistsException" then
    (Returned (None, Some (ApiError 409 "Username already exists")), w')
  else
    (Returned (None, Some (ClientError text)),
     after_log w' "Cognito admin create user error" (ClientError text)).
Proof. intros Hcall. unfold CreateAdmin. failing_call Hcall. Qed.

(** An operation whose provider call succeeds in adding to a group returns
    no error. *)
Lemma AddGroup_success (input : auth.AddGroupInput.t) (p' : P)
    (out : cognito.AdminAddUserToGroupOutput.t) :
  let request :=
    addgroup_request c (auth.AddGroupInput.Username input)
      (auth.AddGroupInput.GroupName input) in
  cognito.AdminAddUserToGroup (client c) request (provider w)
  = (p', cognito.Success out) ->
  AddGroup c input w =
  (Returned None, after_call w (cognito.CallAdminAddUserToGroup request) p').
Proof.
  intros request Hcall. unfold AddGroup.
  erewrite bind_invoke by exact Hcall. reflexivity.
Qed.

End Failures.

(** ** Login: the typed failures *)

(** C5, as stated, fails: a failure text that contains the "password reset
    required" substring and also the "not authorized" one is answered with
    "Invalid username or password", not with "Password reset required";
    likewise for "user not confirmed". *)
Lemma Login_later_signal_shadowed :
  let reset := "NotAuthorizedException: PasswordResetRequiredException" in
  let unconfirmed := "NotAuthorizedException: UserNotConfirmedException" in
  let input := auth.NewLoginInput "Ada" "secret" in
  strings.Contains reset "PasswordResetRequiredException" = true /\
  fst (Login fake.service input (fake.fresh (fake.failing reset)))
  = Returned (None, Some (ApiError 401 "Invalid username or password")) /\
  strings.Contains unconfirmed "UserNotConfirmedException" = true /\
  fst (Login fake.service input (fake.fresh (fake.failing unconfirmed)))
  = Returned (None, Some (ApiError 401 "Invalid username or password")) /\
  ApiError 401 "Invalid username or password"
  <> ApiError 401 "Password reset required" /\
  ApiError 401 "Invalid username or password"
  <> ApiError 401 "User not confirmed".
Proof. repeat split; try reflexivity; discriminate. Qed.

(** C5, amended: when the provider call of [Login] fails with a text that
    contains "NotAuthorizedException", "PasswordResetRequiredException" or
    "UserNotConfirmedException", [Login] returns no output and an
    Unauthorized (401) error, never an Internal one, whose message is
    "Invalid username or password" if the text contains the first substring,
    else "Password reset required" if it contains the second, else
    "User not confirmed". *)
Theorem Login_typed_failures {P : Type} (c : cognitoAuth P)
    (input : auth.LoginInput.t) (w : World P) (p' : P) (text : string) :
  cognito.InitiateAuth (client c) (login_request c input) (provider w)
  = (p', cognito.Failure text) ->
  strings.Contains text "NotAuthorizedException"
  || strings.Contains text "PasswordResetRequiredException"
  || strings.Contains text "UserNotConfirmedException" = true ->
  let e := ApiError 401 (login_failure_message text) in
  fst (Login c input w) = Returned (None, Some e) /\
  statusClass e = Some Unauthorized /\
  statusClass e <> Some Internal /\
  (strings.Contains text "NotAuthorizedException" = true ->
   e = ApiError 401 "Invalid username or password") /\
  (strings.Contains text "NotAuthorizedException" = false ->
   strings.Contains text "PasswordResetRequiredException" = true ->
   e = ApiError 401 "Password reset required") /\
  (strings.Contains text "NotAuthorizedException" = false ->
   strings.Contains text "PasswordResetRequiredException" = false ->
   e = ApiError 401 "User not confirmed").
Proof.
  intros Hcall Hlisted e. subst e. rewrite (Login_failure c w input p' text Hcall).
  unfold login_failure_message.
  destruct (strings.Contains text "NotAuthorizedException");
    destruct (strings.Contains text "PasswordResetRequiredException");
    destruct (strings.Contains text "UserNotConfirmedException");
    try discriminate Hlisted;
    cbn; repeat split; intros; congruence.
Qed.

Lemma Login_typed_failures_witness :
  fst (Login fake.service (auth.NewLoginInput "Ada" "secret")
         (fake.fresh (fake.failing "PasswordResetRequiredException: reset")))
  = Returned (None, Some (ApiError 401 "Password reset required")).
Proof.
  apply (Login_typed_failures fake.service
           (auth.NewLoginInput "Ada" "secret")
           (fake.fresh (fake.failing "PasswordResetRequiredException: reset"))
           (fake.failing "PasswordResetRequiredException: reset")
           "PasswordResetRequiredException: reset");
    reflexivity.
Defined.

(** ** SignUp on a username that exists *)

(** C6: when the identity-creation call of [SignUp] fails with a text that
    contains "UsernameExistsException", [SignUp] returns no output and a
    Conflict (409) error, and the only request it sends is that creation
    call: no group assignment is requested. *)
Theorem SignUp_username_exists {P : Type} (c : cognitoAuth P)
    (input : auth.SignUpInput.t) (w : World P) (p' : P) (text : string) :
  cognito.SignUp (client c) (signup_request c input) (provider w)
  = (p', cognito.Failure text) ->
  strings.Contains text "UsernameExistsException" = true ->
  let e := ApiError 409 "Username already exists" in
  fst (SignUp c input w) = Returned (None, Some e) /\
  statusClass e = Some Conflict /\
  issued (SignUp c input) w = [cognito.CallSignUp (signup_request c input)] /\
  (forall request,
     ~ In (cognito.CallAdminAddUserToGroup request)
          (issued (SignUp c input) w)).
Proof.
  intros Hcall Hexists e.
  pose proof (SignUp_failure c w input p' text Hcall) as Hrun.
  cbn zeta in Hrun. rewrite Hexists in Hrun.
  assert (Hissued :
    issued (SignUp c input) w = [cognito.CallSignUp (signup_request c input)]).
  { apply issued_app. rewrite Hrun. reflexivity. }
  repeat split.
  - rewrite Hrun. reflexivity.
  - exact Hissued.
  - intros request Hin. rewrite Hissued in Hin.
    destruct Hin as [Heq | []]. discriminate Heq.
Qed.

Lemma SignUp_username_exists_witness :
  let input := auth.NewSignUpInput "Ada" "secret" "Ada L." in
  let w := fake.fresh (fake.failing "UsernameExistsException: taken") in
  fst (SignUp fake.service input w)
  = Returned (None, Some (ApiError 409 "Username already exists")) /\
  issued (SignUp fake.service input) w
  = [cognito.CallSignUp (signup_request fake.service input)].
Proof.
  intros input w.
  destruct (SignUp_username_exists fake.service input w
              (fake.failing "UsernameExistsException: taken")
              "UsernameExistsException: taken"
              eq_refl eq_refl) as (Hret & _ & Hissued & _).
  split; [exact Hret | exact Hissued].
Defined.

(** ** RefreshToken *)

(** C8: when the provider call of [RefreshToken] fails with a text that
    contains "NotAuthorizedException", [RefreshToken] returns the
    Unauthorized (401) error "Invalid refresh token"; and whenever
    [RefreshToken] returns an error, on any provider and in any world, it
    returns no output next to it. *)
Theorem RefreshToken_failures {P : Type} (c : cognitoAuth P)
    (input : auth.RefreshTokenInput.t) (w : World P) :
  (forall p' text,
     cognito.InitiateAuth (client c) (refresh_request c input) (provider w)
     = (p', cognito.Failure text) ->
     strings.Contains text "NotAuthorizedException" = true ->
     fst (RefreshToken c input w)
     = Returned (None, Some (ApiError 401 "Invalid refresh token")) /\
     statusClass (ApiError 401 "Invalid refresh token") = Some Unauthorized) /\
  (forall p' text,
     cognito.InitiateAuth (client c) (refresh_request c input) (provider w)
     = (p', cognito.Failure text) ->
     exists e, fst (RefreshToken c input w) = Returned (None, Some e)) /\
  (forall out e,
     fst (RefreshToken c input w) = Returned (out, Some e) -> out = None).
Proof.
  split; [| split].
  - intros p' text Hcall Hmarker.
    rewrite (RefreshToken_failure c w input p' text Hcall), Hmarker.
    split; reflexivity.
  - intros p' text Hcall.
    rewrite (RefreshToken_failure c w input p' text Hcall).
    destruct (strings.Contains text "NotAuthorizedException");
      eexists; reflexivity.
  - intros out e.
    destruct (cognito.InitiateAuth (client c) (refresh_request c input)
                (provider w)) as [p' [cognitoOut | text]] eqn:Hcall.
    + unfold RefreshToken. erewrite bind_invoke by exact Hcall.
      cbn beta iota.
      destruct (cognito.InitiateAuthOutput.AuthenticationResult cognitoOut)
        as [result |]; [| discriminate].
      rewrite bind_deref_Some.
      destruct (types.AuthenticationResultType.AccessToken result);
        [| discriminate].
      rewrite bind_deref_Some.
      destruct (types.AuthenticationResultType.IdToken result);
        discriminate.
    + rewrite (RefreshToken_failure c w input p' text Hcall).
      destruct (strings.Contains text "NotAuthorizedException");
        intros [= <- _]; reflexivity.
Qed.

Lemma RefreshToken_failures_witness :
  let input := auth.NewRefreshTokenInput "revoked" in
  let w := fake.fresh (fake.failing "NotAuthorizedException: revoked") in
  exists out e,
    fst (RefreshToken fake.service input w) = Returned (out, Some e) /\
    e = ApiError 401 "Invalid refresh token" /\
    out = None.
Proof.
  intros input w.
  destruct (RefreshToken_failures fake.service input w)
    as (Htyped & _ & Hbare).
  destruct (Htyped (fake.failing "NotAuthorizedException: revoked")
              "NotAuthorizedException: revoked" eq_refl eq_refl)
    as [Hret _].
  exists None, (ApiError 401 "Invalid refresh token").
  split; [exact Hret | split; [reflexivity |]].
  exact (Hbare None (ApiError 401 "Invalid refresh token") Hret).
Defined.

(** ** AddGroup and RemoveGroup: the typed failures *)

(** C9, as stated, fails: a failure text that contains the "resource not
    found" substring and also the "user not found" one is answered with
    "User not found", by [AddGroup] and by [RemoveGroup]. *)
Lemma group_signal_shadowed :
  let text := "ResourceNotFoundException: no group for UserNotFoundException" in
  let w := fake.fresh (fake.failing text) in
  strings.Contains text "ResourceNotFoundException" = true /\
  fst (AddGroup fake.service
         {| auth.AddGroupInput.Username := "ada";
            auth.AddGroupInput.GroupName := auth.User |} w)
  = Returned (Some (ApiError 404 "User not found")) /\
  fst (RemoveGroup fake.service
         {| auth.RemoveGroupInput.Username := "ada";
            auth.RemoveGroupInput.GroupName := auth.User |} w)
  = Returned (Some (ApiError 404 "User not found")) /\
  ApiError 404 "User not found" <> ApiError 404 "Group not found".
Proof. repeat split; try reflexivity; discriminate. Qed.

(** C9, amended: when the provider call of [AddGroup], or of [RemoveGroup],
    fails with a text that contains "UserNotFoundException" the operation
    returns the NotFound (404) error "User not found"; when the text
    contains "ResourceNotFoundException" and not "UserNotFoundException",
    it returns the NotFound (404) error "Group not found". *)
Theorem group_typed_failures {P : Type} (c : cognitoAuth P) (w : World P)
    (username : string) (group : auth.UserGroup) (text : string) :
  strings.Contains text "UserNotFoundException"
  || strings.Contains text "ResourceNotFoundException" = true ->
  let e := ApiError 404 (group_failure_message text) in
  (forall p',
     cognito.AdminAddUserToGroup (client c)
       (addgroup_request c username group) (provider w)
     = (p', cognito.Failure text) ->
     fst (AddGroup c {| auth.AddGroupInput.Username := username;
                        auth.AddGroupInput.GroupName := group |} w)
     = Returned (Some e)) /\
  (forall p',
     cognito.AdminRemoveUserFromGroup (client c)
       (removegroup_request c username group) (provider w)
     = (p', cognito.Failure text) ->
     fst (RemoveGroup c {| auth.RemoveGroupInput.Username := username;
                           auth.RemoveGroupInput.GroupName := group |} w)
     = Returned (Some e)) /\
  statusClass e = Some NotFound /\
  (strings.Contains text "UserNotFoundException" = true ->
   e = ApiError 404 "User not found") /\
  (strings.Contains text "UserNotFoundException" = false ->
   e = ApiError 404 "Group not found").
Proof.
  intros Hlisted e. subst e. unfold group_failure_message.
  repeat split.
  - intros p' Hcall.
    rewrite (AddGroup_failure c w
               {| auth.AddGroupInput.Username := username;
                  auth.AddGroupInput.GroupName := group |} p' text Hcall).
    destruct (strings.Contains text "UserNotFoundException");
      destruct (strings.Contains text "ResourceNotFoundException");
      try discriminate Hlisted; reflexivity.
  - intros p' Hcall.
    rewrite (RemoveGroup_failure c w
               {| auth.RemoveGroupInput.Username := username;
                  auth.RemoveGroupInput.GroupName := group |} p' text Hcall).
    destruct (strings.Contains text "UserNotFoundException");
      destruct (strings.Contains text "ResourceNotFoundException");
      try discriminate Hlisted; reflexivity.
  - intros ->. reflexivity.
  - intros ->. reflexivity.
Qed.

Lemma group_typed_failures_witness :
  let text := "ResourceNotFoundException: Group not found." in
  let w := fake.fresh (fake.failing text) in
  fst (AddGroup fake.service
         {| auth.AddGroupInput.Username := "ada";
            auth.AddGroupInput.GroupName := auth.User |} w)
  = Returned (Some (ApiError 404 "Group not found")) /\
  fst (RemoveGroup fake.service
         {| auth.RemoveGroupInput.Username := "ada";
            auth.RemoveGroupInput.GroupName := auth.User |} w)
  = Returned (Some (ApiError 404 "Group not found")).
Proof.
  intros text w.
  destruct (group_typed_failures fake.service w "ada" auth.User text eq_refl)
    as (Hadd & Hremove & _).
  split.
  - exact (Hadd (fake.failing text) eq_refl).
  - exact (Hremove (fake.failing text) eq_refl).
Defined.

(** ** ValidateToken *)

(** C7: when the verifier succeeds on a token, [ValidateToken] returns the
    claims whose email, id and groups are the verifier's email, subject and
    groups for that token, and no error; when the verifier fails, it returns
    the verifier's error and no claims. Nothing is sent to the provider. *)
Theorem ValidateToken_reflects_verifier {P : Type} (c : cognitoAuth P)
    (token : string) (w : World P) :
  (forall parsed claims,
     jwt_verify.ParseJWT (jwtVerify c) token = (parsed, claims, None) ->
     ValidateToken c token w =
     (Returned
        (Some {| auth.Claims.Email := jwt_verify.Claims.Email claims;
                 auth.Claims.Id := jwt_verify.Claims.Sub claims;
                 auth.Claims.UserGroups :=
                   jwt_verify.Claims.UserGroups claims |},
         None),
      w)) /\
  (forall parsed claims e,
     jwt_verify.ParseJWT (jwtVerify c) token = (parsed, claims, Some e) ->
     ValidateToken c token w = (Returned (None, Some e), w)).
Proof.
  split.
  - intros parsed claims Hparse. unfold ValidateToken. rewrite Hparse.
    reflexivity.
  - intros parsed claims e Hparse. unfold ValidateToken. rewrite Hparse.
    reflexivity.
Qed.

Lemma ValidateToken_reflects_verifier_witness :
  let w := fake.fresh (fake.failing "unused") in
  (exists claims,
     fst (ValidateToken fake.service "good" w) = Returned (Some claims, None)
     /\ auth.Claims.UserGroups claims = [ "A"; "B" ]
     /\ auth.Claims.Email claims = "ada@example.org"
     /\ auth.Claims.Id claims = "sub-1") /\
  fst (ValidateToken fake.service "expired" w)
  = Returned (None, Some (ApiError 401 "Unauthorized")).
Proof.
  intros w.
  destruct (ValidateToken_reflects_verifier fake.service "good" w)
    as [Hgood _].
  destruct (ValidateToken_reflects_verifier fake.service "expired" w)
    as [_ Hbad].
  split.
  - eexists. split.
    + rewrite (Hgood tt _ eq_refl). reflexivity.
    + repeat split.
  - rewrite (Hbad tt _ _ eq_refl). reflexivity.
Defined.

(** ** GetUser: the display name *)

(** C10: when the provider call of [GetUser] succeeds, the name [GetUser]
    returns is the value of the first element of the response's attribute
    list, whatever the name of that attribute; and [GetUser] returns at all
    exactly when the response has a username, a first attribute and a value
    in it. In every other case it panics. *)
Theorem GetUser_first_attribute {P : Type} (c : cognitoAuth P)
    (input : auth.GetUserInput.t) (w : World P) (p' : P)
    (cognitoOut : cognito.GetUserOutput.t) :
  cognito.GetUser (client c) (getuser_request input) (provider w)
  = (p', cognito.Success cognitoOut) ->
  let present :=
    exists username attribute rest name,
      cognito.GetUserOutput.Username cognitoOut = Some username /\
      cognito.GetUserOutput.UserAttributes cognitoOut = attribute :: rest /\
      types.AttributeType.Value attribute = Some name in
  (forall username attribute rest name,
     cognito.GetUserOutput.Username cognitoOut = Some username ->
     cognito.GetUserOutput.UserAttributes cognitoOut = attribute :: rest ->
     types.AttributeType.Value attribute = Some name ->
     fst (GetUser c input w)
     = Returned (Some {| auth.GetUserOutput.Username := username;
                         auth.GetUserOutput.Name := name |},
                 None)) /\
  ((exists r, fst (GetUser c input w) = Returned r) <-> present) /\
  (fst (GetUser c input w) = Panicked <-> ~ present).
Proof.
  intros Hcall present.
  assert (Hrun : forall username attribute rest name,
     cognito.GetUserOutput.Username cognitoOut = Some username ->
     cognito.GetUserOutput.UserAttributes cognitoOut = attribute :: rest ->
     types.AttributeType.Value attribute = Some name ->
     fst (GetUser c input w)
     = Returned (Some {| auth.GetUserOutput.Username := username;
                         auth.GetUserOutput.Name := name |},
                 None)).
  { intros username attribute rest name Hu Ha Hv.
    unfold GetUser. erewrite bind_invoke by exact Hcall. cbn beta iota.
    rewrite Hu, Ha. cbn [index0]. rewrite bind_deref_Some, bind_ret, Hv.
    reflexivity. }
  assert (Hdec : present \/ fst (GetUser c input w) = Panicked).
  { unfold GetUser. erewrite bind_invoke by exact Hcall. cbn beta iota.
    subst present.
    destruct (cognito.GetUserOutput.Username cognitoOut) as [username |];
      [| right; reflexivity].
    destruct (cognito.GetUserOutput.UserAttributes cognitoOut)
      as [| attribute rest]; [right; reflexivity |].
    destruct (types.AttributeType.Value attribute) as [name |] eqn:Hv;
      [| right; cbn [index0]; rewrite bind_deref_Some, bind_ret, Hv;
         reflexivity].
    left. exists username, attribute, rest, name. repeat split. exact Hv. }
  split; [exact Hrun |]. split; split.
  - intros [r Hr]. destruct Hdec as [Hp | Hpanic]; [exact Hp |].
    rewrite Hpanic in Hr. discriminate Hr.
  - intros (username & attribute & rest & name & Hu & Ha & Hv).
    eexists. exact (Hrun username attribute rest name Hu Ha Hv).
  - intros Hpanic (username & attribute & rest & name & Hu & Ha & Hv).
    rewrite (Hrun username attribute rest name Hu Ha Hv) in Hpanic.
    discriminate Hpanic.
  - intros Hnot. destruct Hdec as [Hp | Hpanic]; [contradiction | exact Hpanic].
Qed.

Lemma GetUser_first_attribute_witness :
  let response :=
    {| cognito.GetUserOutput.Username := Some "ada";
       cognito.GetUserOutput.UserAttributes :=
         [ {| types.AttributeType.Name := Some "sub";
              types.AttributeType.Value := Some "7f3a-uuid" |};
           {| types.AttributeType.Name := Some "name";
              types.AttributeType.Value := Some "Ada L." |} ] |} in
  let w :=
    fake.fresh
      (fake.answering (cognito.Failure "unused") (cognito.Success response)) in
  fst (GetUser fake.service (auth.NewGetUserInput "token") w)
  = Returned (Some {| auth.GetUserOutput.Username := "ada";
                      auth.GetUserOutput.Name := "7f3a-uuid" |},
              None).
Proof.
  intros response w.
  destruct (GetUser_first_attribute fake.service
              (auth.NewGetUserInput "token") w
              (provider w) response eq_refl) as [Hname _].
  exact (Hname "ada" _ _ "7f3a-uuid" eq_refl eq_refl eq_refl).
Defined.

(** ** Login: a challenge instead of an authentication result *)

(** C4 (what the code does): when the provider answers [Login]'s call with
    a success that carries no authentication result, as it does for a user
    who must change the password, [Login] panics: it returns neither an
    error nor an output. *)
Theorem Login_challenge_panics {P : Type} (c : cognitoAuth P)
    (input : auth.LoginInput.t) (w : World P) (p' : P)
    (cognitoOut : cognito.InitiateAuthOutput.t) :
  cognito.InitiateAuth (client c) (login_request c input) (provider w)
  = (p', cognito.Success cognitoOut) ->
  cognito.InitiateAuthOutput.AuthenticationResult cognitoOut = None ->
  Login c input w =
  (Panicked,
   after_call w (cognito.CallInitiateAuth (login_request c input)) p') /\
  (forall r, fst (Login c input w) <> Returned r).
Proof.
  intros Hcall Hnil.
  assert (Hrun : Login c input w =
    (Panicked,
     after_call w (cognito.CallInitiateAuth (login_request c input)) p')).
  { unfold Login. erewrite bind_invoke by exact Hcall. cbn beta iota.
    rewrite Hnil. reflexivity. }
  split; [exact Hrun |]. intros r. rewrite Hrun. discriminate.
Qed.

Lemma Login_challenge_panics_witness :
  let challenge :=
    {| cognito.InitiateAuthOutput.AuthenticationResult := None;
       cognito.InitiateAuthOutput.ChallengeName := "NEW_PASSWORD_REQUIRED";
       cognito.InitiateAuthOutput.ChallengeParameters :=
         <["USER_ID_FOR_SRP" := "ada"]> ∅;
       cognito.InitiateAuthOutput.Session := Some "session-1" |} in
  let w :=
    fake.fresh
      (fake.answering (cognito.Success challenge) (cognito.Failure "unused")) in
  fst (Login fake.service (auth.NewLoginInput "Ada" "temporary") w) = Panicked.
Proof.
  intros challenge w.
  destruct (Login_challenge_panics fake.service
              (auth.NewLoginInput "Ada" "temporary") w (provider w)
              challenge eq_refl eq_refl) as [Hrun _].
  rewrite Hrun. reflexivity.
Defined.

(** ** SignUp: group assignment after creation, without rollback *)

(** C2: when the identity-creation call of [SignUp] succeeds, [SignUp] next
    asks the provider to add that username to the group [User], and sends
    nothing else: the provider is left in the state the group call gave it,
    no request undoes the creation. If the group call fails, [SignUp]
    returns no output and the error [AddGroup] returns for it; if it
    succeeds, [SignUp] returns the output and no error. *)
Theorem SignUp_assigns_group_without_rollback {P : Type} (c : cognitoAuth P)
    (input : auth.SignUpInput.t) (w : World P) (p1 p2 : P)
    (created : cognito.SignUpOutput.t)
    (assigned : cognito.Response cognito.AdminAddUserToGroupOutput.t) :
  let creation := signup_request c input in
  let assignment :=
    addgroup_request c (auth.SignUpInput.Username input) auth.User in
  cognito.SignUp (client c) creation (provider w)
  = (p1, cognito.Success created) ->
  cognito.AdminAddUserToGroup (client c) assignment p1 = (p2, assigned) ->
  issued (SignUp c input) w
  = [ cognito.CallSignUp creation; cognito.CallAdminAddUserToGroup assignment ]
  /\ provider (snd (SignUp c input w)) = p2
  /\ match assigned with
     | cognito.Success _ =>
         fst (SignUp c input w)
         = Returned
             (Some {| auth.SignUpOutput.IsConfirmed :=
                        cognito.SignUpOutput.UserConfirmed created |},
              None)
     | cognito.Failure _ =>
         exists e,
           fst (AddGroup c
                  {| auth.AddGroupInput.Username :=
                       auth.SignUpInput.Username input;
                     auth.AddGroupInput.GroupName := auth.User |}
                  (after_call w (cognito.CallSignUp creation) p1))
           = Returned (Some e)
           /\ fst (SignUp c input w) = Returned (None, Some e)
     end.
Proof.
  intros creation assignment Hcreate Hassign.
  set (w1 := after_call w (cognito.CallSignUp creation) p1).
  set (group := {| auth.AddGroupInput.Username :=
                     auth.SignUpInput.Username input;
                   auth.AddGroupInput.GroupName := auth.User |}).
  assert (Hstep : SignUp c input w =
    bind (AddGroup c group)
      (fun err =>
         match err with
         | Some e => ret (None, Some e)
         | None =>
             ret (Some {| auth.SignUpOutput.IsConfirmed :=
                            cognito.SignUpOutput.UserConfirmed created |},
                  None)
         end) w1).
  { unfold SignUp. erewrite bind_invoke by exact Hcreate. reflexivity. }
  assert (Hassign1 :
    cognito.AdminAddUserToGroup (client c) assignment (provider w1)
    = (p2, assigned)) by exact Hassign.
  assert (Htrace : forall w2 : World P,
    calls w2 = calls (after_call w1
                        (cognito.CallAdminAddUserToGroup assignment) p2) ->
    calls w2 = calls w ++ [ cognito.CallSignUp creation;
                            cognito.CallAdminAddUserToGroup assignment ]).
  { intros w2 ->. cbn. rewrite <- app_assoc. reflexivity. }
  destruct assigned as [out | text].
  - pose proof (AddGroup_success c w1 group p2 out Hassign1) as Hadd.
    cbn zeta in Hadd.
    rewrite (bind_returned _ _ _ _ _ Hadd) in Hstep.
    split; [| split].
    + apply issued_app. rewrite Hstep. apply Htrace. reflexivity.
    + rewrite Hstep. reflexivity.
    + rewrite Hstep. reflexivity.
  - pose proof (AddGroup_failure c w1 group p2 text Hassign1) as Hadd.
    cbn zeta in Hadd.
    destruct (strings.Contains text "UserNotFoundException");
      [| destruct (strings.Contains text "ResourceNotFoundException")];
      rewrite (bind_returned _ _ _ _ _ Hadd) in Hstep;
      (split; [| split]);
      try (apply issued_app; rewrite Hstep; apply Htrace; reflexivity);
      try (rewrite Hstep; reflexivity);
      (eexists; split; [rewrite Hadd; reflexivity | rewrite Hstep; reflexivity]).
Qed.

(** On a directory in which the group [User] does not exist, [SignUp]
    fails with "Group not found" and leaves the new identity in the
    directory, in no group. *)
Lemma SignUp_assigns_group_without_rollback_witness :
  let input := auth.NewSignUpInput "Ada" "secret" "Ada L." in
  let w := fake.fresh fake.admins_only in
  fst (SignUp fake.directory_service input w)
  = Returned (None, Some (ApiError 404 "Group not found")) /\
  issued (SignUp fake.directory_service input) w
  = [ cognito.CallSignUp (signup_request fake.directory_service input);
      cognito.CallAdminAddUserToGroup
        (addgroup_request fake.directory_service "ada" "User") ] /\
  fake.users (provider (snd (SignUp fake.directory_service input w))) !! "ada"
  = Some [].
Proof.
  intros input w.
  destruct (SignUp_assigns_group_without_rollback fake.directory_service
              input w
              {| fake.users := <["ada" := []]> ∅; fake.groups := [ "Admin" ] |}
              {| fake.users := <["ada" := []]> ∅; fake.groups := [ "Admin" ] |}
              {| cognito.SignUpOutput.UserConfirmed := false;
                 cognito.SignUpOutput.UserSub := None |}
              (cognito.Failure "ResourceNotFoundException: Group not found.")
              eq_refl eq_refl)
    as (Hissued & Hstate & e & Hadd & Hret).
  split; [| split].
  - rewrite Hret. f_equal. f_equal. f_equal.
    injection Hadd as <-. reflexivity.
  - exact Hissued.
  - rewrite Hstate. reflexivity.
Defined.

(** ** The requests each operation sends *)

Section Traces.

Context {P : Type}.
Variable c : cognitoAuth P.

(** A continuation that sends nothing leaves the trace as it finds it. *)
Lemma bind_calls_silent {A B : Type} (m : M P A) (k : A -> M P B)
    (w : World P) :
  (forall a w', calls (snd (k a w')) = calls w') ->
  calls (snd (bind m k w)) = calls (snd (m w)).
Proof.
  intros Hsilent. unfold bind.
  destruct (m w) as [[a |] w']; [apply Hsilent | reflexivity].
Qed.

(** Closes a goal on the trace of an operation that sends a single
    request, by cases on the response and on what the operation reads in
    it. *)
Ltac single_call w :=
  match goal with
  | |- context [invoke ?method ?record ?input] =>
      let Hcall := fresh "Hcall" in
      destruct (method input (provider w)) as [? [? | ?]] eqn:Hcall;
      erewrite bind_invoke by exact Hcall
  end;
  cbn beta iota;
  [ unfold bind, deref, index0, ret, panic;
    repeat (match goal with
            | |- context [match ?x with Some _ => _ | None => _ end] =>
                destruct x
            | |- context [match ?x with [] => _ | _ :: _ => _ end] =>
                destruct x
            end; cbn)
  | repeat match goal with
           | |- context [strings.Contains ?text ?marker] =>
               destruct (strings.Contains text marker)
           end ];
  reflexivity.

Lemma Login_calls (input : auth.LoginInput.t) (w : World P) :
  calls (snd (Login c input w))
  = calls w ++ [ cognito.CallInitiateAuth (login_request c input) ].
Proof. unfold Login. single_call w. Qed.

Lemma ConfirmSignUp_calls (input : auth.ConfirmSignUpInput.t) (w : World P) :
  calls (snd (ConfirmSignUp c input w))
  = calls w ++ [ cognito.CallConfirmSignUp (confirm_request c input) ].
Proof. unfold ConfirmSignUp. single_call w. Qed.

Lemma AddGroup_calls (input : auth.AddGroupInput.t) (w : World P) :
  calls (snd (AddGroup c input w))
  = calls w
    ++ [ cognito.CallAdminAddUserToGroup
           (addgroup_request c (auth.AddGroupInput.Username input)
              (auth.AddGroupInput.GroupName input)) ].
Proof. unfold AddGroup. single_call w. Qed.

Lemma RemoveGroup_calls (input : auth.RemoveGroupInput.t) (w : World P) :
  calls (snd (RemoveGroup c input w))
  = calls w
    ++ [ cognito.CallAdminRemoveUserFromGroup
           (removegroup_request c (auth.RemoveGroupInput.Username input)
              (auth.RemoveGroupInput.GroupName input)) ].
Proof. unfold RemoveGroup. single_call w. Qed.

(** [SignUp] sends the creation request and, when the creation succeeds,
    the request that adds the username to the group [User]. *)
Lemma SignUp_calls (input : auth.SignUpInput.t) (w : World P) :
  let creation := cognito.CallSignUp (signup_request c input) in
  let assignment :=
    cognito.CallAdminAddUserToGroup
      (addgroup_request c (auth.SignUpInput.Username input) auth.User) in
  calls (snd (SignUp c input w))
  = calls w
    ++ match snd (cognito.SignUp (client c) (signup_request c input)
                    (provider w)) with
       | cognito.Success _ => [ creation; assignment ]
       | cognito.Failure _ => [ creation ]
       end.
Proof.
  intros creation assignment. unfold SignUp.
  destruct (cognito.SignUp (client c) (signup_request c input) (provider w))
    as [p1 [created | text]] eqn:Hcall;
    erewrite bind_invoke by exact Hcall; cbn beta iota.
  - rewrite bind_calls_silent by (intros [e |] w'; reflexivity).
    rewrite AddGroup_calls. cbn. rewrite <- app_assoc. reflexivity.
  - destruct (strings.Contains text "UsernameExistsException"); reflexivity.
Qed.

(** [CreateAdmin] sends the creation request and, when the creation
    succeeds, the request that adds the username to the group [Admin]. *)
Lemma CreateAdmin_calls (input : auth.CreateAdminInput.t) (w : World P) :
  let creation := cognito.CallAdminCreateUser (createadmin_request c input) in
  let assignment :=
    cognito.CallAdminAddUserToGroup
      (addgroup_request c (auth.CreateAdminInput.Username input)
         auth.Admin) in
  calls (snd (CreateAdmin c input w))
  = calls w
    ++ match snd (cognito.AdminCreateUser (client c)
                    (createadmin_request c input) (provider w)) with
       | cognito.Success _ => [ creation; assignment ]
       | cognito.Failure _ => [ creation ]
       end.
Proof.
  intros creation assignment. unfold CreateAdmin.
  destruct (cognito.AdminCreateUser (client c) (createadmin_request c input)
              (provider w))
    as [p1 [created | text]] eqn:Hcall;
    erewrite bind_invoke by exact Hcall; cbn beta iota.
  - rewrite bind_calls_silent by (intros [e |] w'; reflexivity).
    rewrite AddGroup_calls. cbn. rewrite <- app_assoc. reflexivity.
  - destruct (strings.Contains text "UsernameExistsException"); reflexivity.
Qed.

End Traces.

(** ** Lower-casing *)

Lemma lower_byte_idempotent (a : ascii) :
  strings.lower_byte (strings.lower_byte a) = strings.lower_byte a.
Proof. destruct a as [[] [] [] [] [] [] [] []]; reflexivity. Qed.

(** Lower-casing a username twice is lower-casing it once. *)
Lemma ToLower_idempotent (s : string) :
  strings.ToLower (strings.ToLower s) = strings.ToLower s.
Proof.
  induction s as [| a s IH]; [reflexivity |].
  cbn [strings.ToLower]. rewrite lower_byte_idempotent, IH. reflexivity.
Qed.

(** ** The username in the requests *)

(** C3, as stated, fails: the operations send the username of their input
    as it is. [AddGroup] and [RemoveGroup], whose inputs have no
    constructor, given ["Ada"] ask the provider about "Ada", not about
    "ada"; so does [Login] on an input not built by [NewLoginInput]. *)
Lemma group_username_not_lowered :
  let w := fake.fresh (fake.answering (cognito.Failure "unused")
                         (cognito.Failure "unused")) in
  issued (AddGroup fake.service
            {| auth.AddGroupInput.Username := "Ada";
               auth.AddGroupInput.GroupName := auth.User |}) w
  = [ cognito.CallAdminAddUserToGroup
        {| cognito.AdminAddUserToGroupInput.UserPoolId := Some "pool-1";
           cognito.AdminAddUserToGroupInput.Username := Some "Ada";
           cognito.AdminAddUserToGroupInput.GroupName := Some "User" |} ] /\
  issued (RemoveGroup fake.service
            {| auth.RemoveGroupInput.Username := "Ada";
               auth.RemoveGroupInput.GroupName := auth.User |}) w
  = [ cognito.CallAdminRemoveUserFromGroup
        {| cognito.AdminRemoveUserFromGroupInput.UserPoolId := Some "pool-1";
           cognito.AdminRemoveUserFromGroupInput.Username := Some "Ada";
           cognito.AdminRemoveUserFromGroupInput.GroupName := Some "User" |} ]
  /\ map call_username
       (issued (Login fake.service
                  {| auth.LoginInput.Username := "Ada";
                     auth.LoginInput.Password := "secret" |}) w)
     = [ Some "Ada" ]
  /\ strings.ToLower "Ada" = "ada"
  /\ "Ada" <> strings.ToLower "Ada".
Proof. repeat split; try reflexivity. discriminate. Qed.

(** [AddGroup] and [RemoveGroup] send one request, which carries the
    username of their input unchanged. *)
Lemma group_operations_keep_username {P : Type} (c : cognitoAuth P)
    (w : World P) :
  (forall input,
     exists call,
       issued (AddGroup c input) w = [ call ] /\
       call_username call = Some (auth.AddGroupInput.Username input)) /\
  (forall input,
     exists call,
       issued (RemoveGroup c input) w = [ call ] /\
       call_username call = Some (auth.RemoveGroupInput.Username input)).
Proof.
  split; intros input; eexists; split.
  - exact (issued_app _ w _ (AddGroup_calls c input w)).
  - reflexivity.
  - exact (issued_app _ w _ (RemoveGroup_calls c input w)).
  - reflexivity.
Qed.

(** C3, amended: for an ASCII username (the range on which [ToLower] here
    is Go's), the constructors [NewLoginInput], [NewSignUpInput],
    [NewConfirmSignUpInput] and [NewCreateAdminInput] lower-case the
    username, and [Login], [SignUp], [ConfirmSignUp] and [CreateAdmin], run
    on an input so built, send at least one request and every request they
    send (the group assignment of [SignUp] and [CreateAdmin] included)
    carries the lower-cased username. *)
Theorem constructors_lower_usernames {P : Type} (c : cognitoAuth P)
    (w : World P) (username password name code : string) :
  observe.all_bytes observe.is_ascii username = true ->
  let lowered := strings.ToLower username in
  let carries (requests : list cognito.Call) :=
    requests <> [] /\
    Forall (fun call => call_username call = Some lowered) requests in
  carries (issued (Login c (auth.NewLoginInput username password)) w) /\
  carries (issued (SignUp c (auth.NewSignUpInput username password name)) w)
  /\ carries
       (issued (ConfirmSignUp c (auth.NewConfirmSignUpInput username code)) w)
  /\ carries
       (issued
          (CreateAdmin c (auth.NewCreateAdminInput username password name)) w).
Proof.
  intros _ lowered carries. subst carries. cbn beta.
  repeat split.
  - rewrite (issued_app _ w _ (Login_calls c _ w)). discriminate.
  - rewrite (issued_app _ w _ (Login_calls c _ w)).
    repeat constructor.
  - rewrite (issued_app _ w _ (SignUp_calls c _ w)).
    destruct (snd _); discriminate.
  - rewrite (issued_app _ w _ (SignUp_calls c _ w)).
    destruct (snd _); repeat constructor.
  - rewrite (issued_app _ w _ (ConfirmSignUp_calls c _ w)). discriminate.
  - rewrite (issued_app _ w _ (ConfirmSignUp_calls c _ w)).
    repeat constructor.
  - rewrite (issued_app _ w _ (CreateAdmin_calls c _ w)).
    destruct (snd _); discriminate.
  - rewrite (issued_app _ w _ (CreateAdmin_calls c _ w)).
    destruct (snd _); repeat constructor.
Qed.

(** On the directory, a sign-up of "Ada" asks about "ada" in both of its
    requests, and a login of "Ada" in its one request. *)
Lemma constructors_lower_usernames_witness :
  let w := fake.fresh fake.admins_only in
  let signup :=
    issued (SignUp fake.directory_service
              (auth.NewSignUpInput "Ada" "secret" "Ada L.")) w in
  let login :=
    issued (Login fake.directory_service
              (auth.NewLoginInput "Ada" "secret")) w in
  List.length signup = 2%nat /\
  Forall (fun call => call_username call = Some "ada") signup /\
  List.length login = 1%nat /\
  Forall (fun call => call_username call = Some "ada") login.
Proof.
  intros w signup login.
  destruct (constructors_lower_usernames fake.directory_service w
              "Ada" "secret" "Ada L." "123456" eq_refl)
    as ([_ Hlogin] & [_ Hsignup] & _).
  split; [reflexivity |]. split; [exact Hsignup |].
  split; [reflexivity | exact Hlogin].
Defined.

(** ** Failures the operations do not classify *)

(** C1, as stated, fails: a failure of [Login]'s provider call whose text
    contains none of [Login]'s substrings comes back as the provider's own
    error value, which is no domain error and has no status class; it is
    not an Internal-class domain error. *)
Lemma unclassified_failure_not_internal :
  let text := "InternalErrorException: upstream unavailable" in
  let input := auth.NewLoginInput "Ada" "secret" in
  let w := fake.fresh (fake.failing text) in
  unlisted (OpLogin input) text = true /\
  fst (Login fake.service input w) = Returned (None, Some (ClientError text)) /\
  is_domain_error (ClientError text) = false /\
  statusClass (ClientError text) <> Some Internal.
Proof. repeat split; try reflexivity. discriminate. Qed.

(** C1, amended: for every operation (Login, SignUp, ConfirmSignUp, GetUser,
    RefreshToken, AddGroup, RemoveGroup, CreateAdmin), when the operation's
    own provider call (for SignUp and CreateAdmin, the call that creates the
    identity) fails with a text that contains none of the operation's
    substrings, the operation logs the failure and returns, with no output,
    the provider's error unchanged. That error is not one of the typed
    domain errors; it is not a domain error at all and carries no status
    class, Internal or other. *)
Theorem unclassified_failure_returned_unchanged {P : Type}
    (c : cognitoAuth P) (op : Operation) (w : World P) (text : string) :
  own_call_failure c op (provider w) = Some text ->
  unlisted op text = true ->
  exists w',
    perform c op w = (Returned (false, Some (ClientError text)), w') /\
    logged w' = logged w ++ [ (log_message op, ClientError text) ] /\
    is_domain_error (ClientError text) = false /\
    statusClass (ClientError text) = None.
Proof.
  intros Hfail Hunlisted.
  unfold unlisted in Hunlisted.
  assert (Hdone : forall (A : Type) (m : M P (option A * option error)) w',
    m w = (Returned (None, Some (ClientError text)), w') ->
    bind m (fun r => ret (summary r)) w
    = (Returned (false, Some (ClientError text)), w')).
  { intros A m w' Hm. rewrite (bind_returned _ _ _ _ _ Hm). reflexivity. }
  assert (Hdone' : forall (m : M P (option error)) w',
    m w = (Returned (Some (ClientError text)), w') ->
    bind m (fun e => ret (false, e)) w
    = (Returned (false, Some (ClientError text)), w')).
  { intros m w' Hm. rewrite (bind_returned _ _ _ _ _ Hm). reflexivity. }
  destruct op as [input | input | input | input | input | input | input
                 | input];
    cbn [own_call_failure] in Hfail;
    cbn [allow_list forallb] in Hunlisted;
    match type of Hfail with
    | failure_text (snd ?call) = Some text =>
        destruct call as [p' [out | text']] eqn:Hcall;
        cbn [snd failure_text] in Hfail;
        [discriminate Hfail | injection Hfail as ->]
    end;
    [ pose proof (Login_failure c w input p' text Hcall) as Hrun
    | pose proof (SignUp_failure c w input p' text Hcall) as Hrun
    | pose proof (ConfirmSignUp_failure c w input p' text Hcall) as Hrun
    | pose proof (GetUser_failure c w input p' text Hcall) as Hrun
    | pose proof (RefreshToken_failure c w input p' text Hcall) as Hrun
    | pose proof (AddGroup_failure c w input p' text Hcall) as Hrun
    | pose proof (RemoveGroup_failure c w input p' text Hcall) as Hrun
    | pose proof (CreateAdmin_failure c w input p' text Hcall) as Hrun ];
    cbn zeta in Hrun;
    repeat match type of Hrun with
           | context [strings.Contains text ?marker] =>
               destruct (strings.Contains text marker);
               [cbn in Hunlisted; discriminate Hunlisted |]
           end;
    eexists;
    (split;
     [ first [ exact (Hdone _ _ _ Hrun) | exact (Hdone' _ _ Hrun) ]
     | repeat split ]).
Qed.

Lemma unclassified_failure_returned_unchanged_witness :
  let text := "TooManyRequestsException: slow down" in
  let op :=
    OpSignUp (auth.NewSignUpInput "Ada" "secret" "Ada L.") in
  fst (perform fake.service op (fake.fresh (fake.failing text)))
  = Returned (false, Some (ClientError text)).
Proof.
  intros text op.
  destruct (unclassified_failure_returned_unchanged fake.service op
              (fake.fresh (fake.failing text)) text eq_refl eq_refl)
    as (w' & Hrun & _).
  rewrite Hrun. reflexivity.
Defined.

(** * Further properties

    ** What each operation does when its provider call succeeds *)

Section Successes.

Context {P : Type}.
Variable c : cognitoAuth P.
Variable w : World P.

Lemma Login_success (input : auth.LoginInput.t) (p' : P)
    (cognitoOut : cognito.InitiateAuthOutput.t) :
  cognito.InitiateAuth (client c) (login_request c input) (provider w)
  = (p', cognito.Success cognitoOut) ->
  Login c input w =
  (match cognito.InitiateAuthOutput.AuthenticationResult cognitoOut with
   | Some result =>
       match types.AuthenticationResultType.AccessToken result,
             types.AuthenticationResultType.RefreshToken result,
             types.AuthenticationResultType.IdToken result with
       | Some accessToken, Some refreshToken, Some idToken =>
           Returned
             (Some {| auth.LoginOutput.AccessToken := accessToken;
                      auth.LoginOutput.RefreshToken := refreshToken;
                      auth.LoginOutput.IdToken := idToken |},
              None)
       | _, _, _ => Panicked
       end
   | None => Panicked
   end,
   after_call w (cognito.CallInitiateAuth (login_request c input)) p').
Proof.
  intros Hcall. unfold Login. erewrite bind_invoke by exact Hcall.
  cbn beta iota.
  destruct (cognito.InitiateAuthOutput.AuthenticationResult cognitoOut)
    as [result |]; [| reflexivity].
  rewrite bind_deref_Some.
  destruct (types.AuthenticationResultType.AccessToken result);
    [rewrite bind_deref_Some | reflexivity].
  destruct (types.AuthenticationResultType.RefreshToken result);
    [rewrite bind_deref_Some | reflexivity].
  destruct (types.AuthenticationResultType.IdToken result); reflexivity.
Qed.

Lemma RefreshToken_success (input : auth.RefreshTokenInput.t) (p' : P)
    (cognitoOut : cognito.InitiateAuthOutput.t) :
  cognito.InitiateAuth (client c) (refresh_request c input) (provider w)
  = (p', cognito.Success cognitoOut) ->
  RefreshToken c input w =
  (match cognito.InitiateAuthOutput.AuthenticationResult cognitoOut with
   | Some result =>
       match types.AuthenticationResultType.AccessToken result,
             types.AuthenticationResultType.IdToken result with
       | Some accessToken, Some idToken =>
           Returned
             (Some {| auth.RefreshTokenOutput.AccessToken := accessToken;
                      auth.RefreshTokenOutput.IdToken := idToken |},
              None)
       | _, _ => Panicked
       end
   | None => Panicked
   end,
   after_call w (cognito.CallInitiateAuth (refresh_request c input)) p').
Proof.
  intros Hcall. unfold RefreshToken. erewrite bind_invoke by exact Hcall.
  cbn beta iota.
  destruct (cognito.InitiateAuthOutput.AuthenticationResult cognitoOut)
    as [result |]; [| reflexivity].
  rewrite bind_deref_Some.
  destruct (types.AuthenticationResultType.AccessToken result);
    [rewrite bind_deref_Some | reflexivity].
  destruct (types.AuthenticationResultType.IdToken result); reflexivity.
Qed.

Lemma GetUser_success (input : auth.GetUserInput.t) (p' : P)
    (cognitoOut : cognito.GetUserOutput.t) :
  cognito.GetUser (client c) (getuser_request input) (provider w)
  = (p', cognito.Success cognitoOut) ->
  GetUser c input w =
  (match cognito.GetUserOutput.Username cognitoOut,
         cognito.GetUserOutput.UserAttributes cognitoOut with
   | Some username, attribute :: _ =>
       match types.AttributeType.Value attribute with
       | Some name =>
           Returned (Some {| auth.GetUserOutput.Username := username;
                             auth.GetUserOutput.Name := name |},
                     None)
       | None => Panicked
       end
   | _, _ => Panicked
   end,
   after_call w (cognito.CallGetUser (getuser_request input)) p').
Proof.
  intros Hcall. unfold GetUser. erewrite bind_invoke by exact Hcall.
  cbn beta iota.
  destruct (cognito.GetUserOutput.Username cognitoOut);
    [rewrite bind_deref_Some | reflexivity].
  destruct (cognito.GetUserOutput.UserAttributes cognitoOut)
    as [| attribute rest]; [reflexivity |].
  cbn [index0]. rewrite bind_ret.
  destruct (types.AttributeType.Value attribute); reflexivity.
Qed.

Lemma ConfirmSignUp_success (input : auth.ConfirmSignUpInput.t) (p' : P)
    (out : cognito.ConfirmSignUpOutput.t) :
  cognito.ConfirmSignUp (client c) (confirm_request c input) (provider w)
  = (p', cognito.Success out) ->
  ConfirmSignUp c input w =
  (Returned (Some auth.ConfirmSignUpOutput.Build_t, None),
   after_call w (cognito.CallConfirmSignUp (confirm_request c input)) p').
Proof.
  intros Hcall. unfold ConfirmSignUp. erewrite bind_invoke by exact Hcall.
  reflexivity.
Qed.

Lemma RemoveGroup_success (input : auth.RemoveGroupInput.t) (p' : P)
    (out : cognito.AdminRemoveUserFromGroupOutput.t) :
  let request :=
    removegroup_request c (auth.RemoveGroupInput.Username input)
      (auth.RemoveGroupInput.GroupName input) in
  cognito.AdminRemoveUserFromGroup (client c) request (provider w)
  = (p', cognito.Success out) ->
  RemoveGroup c input w =
  (Returned None,
   after_call w (cognito.CallAdminRemoveUserFromGroup request) p').
Proof.
  intros request Hcall. unfold RemoveGroup.
  erewrite bind_invoke by exact Hcall. reflexivity.
Qed.

(** [AddGroup] on any response of its provider call. *)
Lemma AddGroup_run (input : auth.AddGroupInput.t) (p' : P)
    (r : cognito.Response cognito.AdminAddUserToGroupOutput.t) :
  let request :=
    addgroup_request c (auth.AddGroupInput.Username input)
      (auth.AddGroupInput.GroupName input) in
  cognito.AdminAddUserToGroup (client c) request (provider w) = (p', r) ->
  let w' := after_call w (cognito.CallAdminAddUserToGroup request) p' in
  AddGroup c input w =
  match r with
  | cognito.Success _ => (Returned None, w')
  | cognito.Failure text =>
      (Returned (Some (observe.group_failure_error text)),
       {| provider := provider w';
          calls := calls w';
          logged := logged w' ++ observe.group_failure_log text |})
  end.
Proof.
  intros request Hcall w'. destruct r as [out | text].
  - exact (AddGroup_success c w input p' out Hcall).
  - rewrite (AddGroup_failure c w input p' text Hcall).
    unfold observe.group_failure_error, observe.group_failure_log.
    destruct (strings.Contains text "UserNotFoundException");
      [| destruct (strings.Contains text "ResourceNotFoundException")];
      try reflexivity;
      subst w'; unfold after_call; cbn; rewrite app_nil_r; reflexivity.
Qed.

End Successes.

(** ** The two operations that create an identity and assign a group *)

Section Compound.

Context {P : Type}.
Variable c : cognitoAuth P.
Variable w : World P.

Lemma SignUp_created (input : auth.SignUpInput.t) (p1 p2 : P)
    (created : cognito.SignUpOutput.t)
    (r : cognito.Response cognito.AdminAddUserToGroupOutput.t) :
  let creation := signup_request c input in
  let assignment :=
    addgroup_request c (auth.SignUpInput.Username input) auth.User in
  cognito.SignUp (client c) creation (provider w)
  = (p1, cognito.Success created) ->
  cognito.AdminAddUserToGroup (client c) assignment p1 = (p2, r) ->
  SignUp c input w =
  (Returned
     match r with
     | cognito.Success _ =>
         (Some {| auth.SignUpOutput.IsConfirmed :=
                    cognito.SignUpOutput.UserConfirmed created |},
          None)
     | cognito.Failure text =>
         (None, Some (observe.group_failure_error text))
     end,
   {| provider := p2;
      calls := calls w ++ [ cognito.CallSignUp creation;
                            cognito.CallAdminAddUserToGroup assignment ];
      logged := logged w ++ match r with
                            | cognito.Success _ => []
                            | cognito.Failure text =>
                                observe.group_failure_log text
                            end |}).
Proof.
  intros creation assignment Hcreate Hassign.
  unfold SignUp. erewrite bind_invoke by exact Hcreate. cbn beta iota.
  set (w1 := after_call w (cognito.CallSignUp creation) p1).
  pose proof (AddGroup_run c w1
                {| auth.AddGroupInput.Username :=
                     auth.SignUpInput.Username input;
                   auth.AddGroupInput.GroupName := auth.User |}
                p2 r Hassign) as Hadd.
  cbn zeta in Hadd.
  destruct r as [out | text];
    rewrite (bind_returned _ _ _ _ _ Hadd);
    subst w1; unfold ret, after_call; cbn;
    rewrite <- ?app_assoc, ?app_nil_r; reflexivity.
Qed.

Lemma CreateAdmin_created (input : auth.CreateAdminInput.t) (p1 p2 : P)
    (created : cognito.AdminCreateUserOutput.t)
    (r : cognito.Response cognito.AdminAddUserToGroupOutput.t) :
  let creation := createadmin_request c input in
  let assignment :=
    addgroup_request c (auth.CreateAdminInput.Username input) auth.Admin in
  cognito.AdminCreateUser (client c) creation (provider w)
  = (p1, cognito.Success created) ->
  cognito.AdminAddUserToGroup (client c) assignment p1 = (p2, r) ->
  CreateAdmin c input w =
  (Returned
     match r with
     | cognito.Success _ =>
         (Some {| auth.CreateAdminOutput.Username :=
                    auth.CreateAdminInput.Username input |},
          None)
     | cognito.Failure text =>
         (None, Some (observe.group_failure_error text))
     end,
   {| provider := p2;
      calls := calls w ++ [ cognito.CallAdminCreateUser creation;
                            cognito.CallAdminAddUserToGroup assignment ];
      logged := logged w ++ match r with
                            | cognito.Success _ => []
                            | cognito.Failure text =>
                                observe.group_failure_log text
                            end |}).
Proof.
  intros creation assignment Hcreate Hassign.
  unfold CreateAdmin. erewrite bind_invoke by exact Hcreate. cbn beta iota.
  set (w1 := after_call w (cognito.CallAdminCreateUser creation) p1).
  pose proof (AddGroup_run c w1
                {| auth.AddGroupInput.Username :=
                     auth.CreateAdminInput.Username input;
                   auth.AddGroupInput.GroupName := auth.Admin |}
                p2 r Hassign) as Hadd.
  cbn zeta in Hadd.
  destruct r as [out | text];
    rewrite (bind_returned _ _ _ _ _ Hadd);
    subst w1; unfold ret, after_call; cbn;
    rewrite <- ?app_assoc, ?app_nil_r; reflexivity.
Qed.

End Compound.

(** ** All operations at once *)

Section Every.

Context {P : Type}.
Variable c : cognitoAuth P.
Variable w : World P.

(** Replaces the run of the operation in the goal by its result, by cases
    on the responses of the provider; [SignUp] and [CreateAdmin] take a
    second case analysis, on the response to the group request. *)
Ltac by_response :=
  match goal with
  | |- context [Login c ?i w] =>
      let Hcall := fresh "Hcall" in
      destruct (cognito.InitiateAuth (client c) (login_request c i)
                  (provider w)) as [p' [out | text]] eqn:Hcall;
      [ rewrite (Login_success c w i p' out Hcall)
      | rewrite (Login_failure c w i p' text Hcall) ]
  | |- context [RefreshToken c ?i w] =>
      let Hcall := fresh "Hcall" in
      destruct (cognito.InitiateAuth (client c) (refresh_request c i)
                  (provider w)) as [p' [out | text]] eqn:Hcall;
      [ rewrite (RefreshToken_success c w i p' out Hcall)
      | rewrite (RefreshToken_failure c w i p' text Hcall) ]
  | |- context [GetUser c ?i w] =>
      let Hcall := fresh "Hcall" in
      destruct (cognito.GetUser (client c) (getuser_request i)
                  (provider w)) as [p' [out | text]] eqn:Hcall;
      [ rewrite (GetUser_success c w i p' out Hcall)
      | rewrite (GetUser_failure c w i p' text Hcall) ]
  | |- context [ConfirmSignUp c ?i w] =>
      let Hcall := fresh "Hcall" in
      destruct (cognito.ConfirmSignUp (client c) (confirm_request c i)
                  (provider w)) as [p' [out | text]] eqn:Hcall;
      [ rewrite (ConfirmSignUp_success c w i p' out Hcall)
      | rewrite (ConfirmSignUp_failure c w i p' text Hcall) ]
  | |- context [AddGroup c ?i w] =>
      let Hcall := fresh "Hcall" in
      destruct (cognito.AdminAddUserToGroup (client c)
                  (addgroup_request c (auth.AddGroupInput.Username i)
                     (auth.AddGroupInput.GroupName i))
                  (provider w)) as [p' [out | text]] eqn:Hcall;
      [ rewrite (AddGroup_success c w i p' out Hcall)
      | rewrite (AddGroup_failure c w i p' text Hcall) ]
  | |- context [RemoveGroup c ?i w] =>
      let Hcall := fresh "Hcall" in
      destruct (cognito.AdminRemoveUserFromGroup (client c)
                  (removegroup_request c (auth.RemoveGroupInput.Username i)
                     (auth.RemoveGroupInput.GroupName i))
                  (provider w)) as [p' [out | text]] eqn:Hcall;
      [ rewrite (RemoveGroup_success c w i p' out Hcall)
      | rewrite (RemoveGroup_failure c w i p' text Hcall) ]
  | |- context [SignUp c ?i w] =>
      let Hcall := fresh "Hcall" in
      let Hgroup := fresh "Hgroup" in
      destruct (cognito.SignUp (client c) (signup_request c i)
                  (provider w)) as [p' [out | text]] eqn:Hcall;
      [ destruct (cognito.AdminAddUserToGroup (client c)
                    (addgroup_request c (auth.SignUpInput.Username i)
                       auth.User) p') as [p'' [added | text]] eqn:Hgroup;
        [ rewrite (SignUp_created c w i p' p'' out _ Hcall Hgroup)
        | rewrite (SignUp_created c w i p' p'' out _ Hcall Hgroup) ]
      | rewrite (SignUp_failure c w i p' text Hcall) ]
  | |- context [CreateAdmin c ?i w] =>
      let Hcall := fresh "Hcall" in
      let Hgroup := fresh "Hgroup" in
      destruct (cognito.AdminCreateUser (client c) (createadmin_request c i)
                  (provider w)) as [p' [out | text]] eqn:Hcall;
      [ destruct (cognito.AdminAddUserToGroup (client c)
                    (addgroup_request c (auth.CreateAdminInput.Username i)
                       auth.Admin) p') as [p'' [added | text]] eqn:Hgroup;
        [ rewrite (CreateAdmin_created c w i p' p'' out _ Hcall Hgroup)
        | rewrite (CreateAdmin_created c w i p' p'' out _ Hcall Hgroup) ]
      | rewrite (CreateAdmin_failure c w i p' text Hcall) ]
  end.

(** Then takes the cases of the substring tests and of the pointers read. *)
Ltac by_cases :=
  unfold observe.group_failure_error, observe.group_failure_log;
  repeat match goal with
         | |- context [strings.Contains ?text ?marker] =>
             destruct (strings.Contains text marker)
         | |- context [match ?x with Some _ => _ | None => _ end] =>
             destruct x
         | |- context [match ?x with [] => _ | _ :: _ => _ end] =>
             destruct x
         end.

Ltac every_operation op :=
  destruct op as [input | input | input | input | input | input | input
                 | input];
  unfold perform, bind; by_response; cbn zeta; by_cases.

(** X1: an operation never returns an output together with an error, and
    an operation that has an output returns one whenever it returns no
    error: whenever an operation returns, "an output came back" holds
    exactly when no error came back and the operation is one that has an
    output ([AddGroup] and [RemoveGroup] have none). *)
Theorem output_excludes_error (op : Operation) (output : bool)
    (err : option error) :
  fst (perform c op w) = Returned (output, err) ->
  output = true <-> (err = None /\ observe.has_output op = true).
Proof.
  every_operation op; cbn; intros [= <- <-]; split;
    (discriminate || (intros [? ?]; discriminate) || (split; reflexivity)
     || reflexivity).
Qed.

(** X2: the logger gets a line exactly when the operation returns a raw
    provider error, and then one line, which holds that same error. Either
    the operation's own provider call failed with that text and the line is
    filed under the operation's own message; or the own call succeeded, the
    group assignment of [SignUp] or [CreateAdmin] failed with that text,
    and the line is filed under [AddGroup]'s message. Typed failures,
    successes and panics log nothing. *)
Theorem raw_failures_logged_once (op : Operation) :
  match perform c op w with
  | (Returned (_, Some (ClientError text)), w') =>
      (own_call_failure c op (provider w) = Some text /\
       logged w' = logged w ++ [ (log_message op, ClientError text) ]) \/
      (own_call_failure c op (provider w) = None /\
       observe.group_call_failure c op (provider w) = Some text /\
       logged w'
       = logged w ++ [ ("Cognito add group error", ClientError text) ])
  | (_, w') => logged w' = logged w
  end.
Proof.
  destruct op as [input | input | input | input | input | input | input
                 | input];
    unfold observe.group_call_failure;
    cbn [own_call_failure observe.group_request
         observe.state_after_own_call];
    unfold perform, bind; by_response;
    cbn [snd failure_text]; cbn zeta;
    repeat match goal with
           | H : ?call = (_, _) |- context [?call] => rewrite H
           end;
    cbn [snd failure_text]; by_cases; cbn; rewrite ?app_nil_r;
    first [ reflexivity
          | left; split; reflexivity
          | right; split; [reflexivity | split; reflexivity] ].
Qed.

(** X3: the requests an operation hands to the provider client are its own
    request and, for [SignUp] and [CreateAdmin] when and only when the
    creation succeeded, the group assignment after it: nothing is sent
    twice, nothing else is sent, whatever the responses. *)
Theorem requests_per_operation (op : Operation) :
  issued (perform c op) w =
  observe.own_request c op
  :: match own_call_failure c op (provider w),
           observe.group_request c op with
     | None, Some assignment =>
         [ cognito.CallAdminAddUserToGroup assignment ]
     | _, _ => []
     end.
Proof.
  destruct op as [input | input | input | input | input | input | input
                 | input];
    cbn [own_call_failure observe.group_request observe.own_request];
    unfold issued, perform, bind; by_response;
    cbn [snd failure_text]; cbn zeta; by_cases; cbn;
    rewrite drop_app_length; reflexivity.
Qed.

(** Every request of every operation carries the identifier it must: the
    pool of the service on administrative requests, its app client on the
    others, none on [GetUser]. *)
Lemma requests_addressed_by (op : Operation) :
  forallb (observe.addressed (clientId c) (userPoolId c))
    (issued (perform c op) w) = true.
Proof.
  destruct op as [input | input | input | input | input | input | input
                 | input];
    unfold issued, perform, bind; by_response; cbn zeta; by_cases; cbn;
    rewrite drop_app_length; cbn;
    repeat case_bool_decide; try reflexivity; congruence.
Qed.

(** X5: [SignUp], [ConfirmSignUp], [AddGroup], [RemoveGroup] and
    [CreateAdmin], which read nothing through the pointers of a response,
    return on every response of the provider: they never panic. *)
Theorem operations_without_pointer_reads_return (op : Operation) :
  observe.reads_response op = false ->
  exists result, fst (perform c op w) = Returned result.
Proof.
  destruct op as [input | input | input | input | input | input | input
                 | input];
    cbn [observe.reads_response]; intros Hreads; try discriminate Hreads;
    unfold perform, bind; by_response; cbn zeta; by_cases;
    eexists; reflexivity.
Qed.

(** X15: a failure of an operation's own provider call always reaches the
    caller: the operation returns (it does not panic), with no output and
    with an error, which is a typed domain error or else the provider's
    error for that very text. *)
Theorem provider_failures_reach_caller (op : Operation) (signal : string) :
  own_call_failure c op (provider w) = Some signal ->
  exists e,
    fst (perform c op w) = Returned (false, Some e) /\
    (is_domain_error e = true \/ e = ClientError signal).
Proof.
  destruct op as [input | input | input | input | input | input | input
                 | input];
    cbn [own_call_failure]; unfold perform, bind; by_response;
    cbn [snd failure_text]; intros Hsignal;
    try discriminate Hsignal;
    injection Hsignal as ->; cbn zeta; by_cases;
    eexists; (split; [reflexivity |]);
    first [ left; reflexivity | right; reflexivity ].
Qed.

End Every.

(** X4: a service made by [NewCognitoAuth] puts its user pool on every
    administrative request ([AdminCreateUser], [AdminAddUserToGroup],
    [AdminRemoveUserFromGroup]) and its app client on [InitiateAuth],
    [SignUp] and [ConfirmSignUp], never one in place of the other;
    [GetUser] carries neither. *)
Theorem requests_addressed {P : Type} (cognito : cognito.Client P)
    (clientId userPoolId : string) (jwtVerify : jwt_verify.JWTVerify)
    (op : Operation) (w : World P) :
  forallb (observe.addressed clientId userPoolId)
    (issued
       (perform (NewCognitoAuth cognito clientId jwtVerify userPoolId) op) w)
  = true.
Proof.
  exact (requests_addressed_by
           (NewCognitoAuth cognito clientId jwtVerify userPoolId) w op).
Qed.

Lemma output_excludes_error_witness :
  let w := fake.fresh (fake.failing "NotAuthorizedException: bad password") in
  let op := OpLogin (auth.NewLoginInput "Ada" "secret") in
  fst (perform fake.service op w)
  = Returned (false, Some (ApiError 401 "Invalid username or password")) /\
  (false = true <->
   (Some (ApiError 401 "Invalid username or password") = None /\
    observe.has_output op = true)).
Proof.
  intros w op. split; [reflexivity |].
  exact (output_excludes_error fake.service w op false
           (Some (ApiError 401 "Invalid username or password")) eq_refl).
Defined.

Lemma operations_without_pointer_reads_return_witness :
  exists result,
    fst (perform fake.directory_service
           (OpCreateAdmin (auth.NewCreateAdminInput "Root" "secret" "Root"))
           (fake.fresh fake.admins_only))
    = Returned result.
Proof.
  exact (operations_without_pointer_reads_return fake.directory_service
           (fake.fresh fake.admins_only)
           (OpCreateAdmin (auth.NewCreateAdminInput "Root" "secret" "Root"))
           eq_refl).
Defined.

(** ** Login and RefreshToken: the tokens *)

(** X6: when the provider answers [Login]'s call with a success whose
    authentication result holds an access, a refresh and an id token,
    [Login] returns those three tokens and no error; and on a success
    [Login] panics exactly when the authentication result or one of the
    three tokens is missing. The challenge name and the session of the
    response are never read. *)
Theorem Login_returns_tokens {P : Type} (c : cognitoAuth P)
    (input : auth.LoginInput.t) (w : World P) (p' : P)
    (cognitoOut : cognito.InitiateAuthOutput.t) :
  cognito.InitiateAuth (client c) (login_request c input) (provider w)
  = (p', cognito.Success cognitoOut) ->
  (forall accessToken idToken refreshToken,
     cognito.InitiateAuthOutput.AuthenticationResult cognitoOut
     = Some {| types.AuthenticationResultType.AccessToken := Some accessToken;
               types.AuthenticationResultType.IdToken := Some idToken;
               types.AuthenticationResultType.RefreshToken :=
                 Some refreshToken |} ->
     fst (Login c input w)
     = Returned (Some {| auth.LoginOutput.AccessToken := accessToken;
                         auth.LoginOutput.IdToken := idToken;
                         auth.LoginOutput.RefreshToken := refreshToken |},
                 None)) /\
  (fst (Login c input w) = Panicked <->
   match cognito.InitiateAuthOutput.AuthenticationResult cognitoOut with
   | None => True
   | Some result =>
       types.AuthenticationResultType.AccessToken result = None \/
       types.AuthenticationResultType.RefreshToken result = None \/
       types.AuthenticationResultType.IdToken result = None
   end).
Proof.
  intros Hcall.
  rewrite (Login_success c w input p' cognitoOut Hcall). cbn [fst].
  split.
  - intros accessToken idToken refreshToken ->. reflexivity.
  - destruct (cognito.InitiateAuthOutput.AuthenticationResult cognitoOut)
      as [[[accessToken |] [idToken |] [refreshToken |]] |]; cbn;
      split; try discriminate; try tauto;
      intros [? | [? | ?]]; discriminate.
Qed.

Lemma Login_returns_tokens_witness :
  let response :=
    {| cognito.InitiateAuthOutput.AuthenticationResult :=
         Some {| types.AuthenticationResultType.AccessToken := Some "access";
                 types.AuthenticationResultType.IdToken := Some "id";
                 types.AuthenticationResultType.RefreshToken :=
                   Some "refresh" |};
       cognito.InitiateAuthOutput.ChallengeName := "";
       cognito.InitiateAuthOutput.ChallengeParameters := ∅;
       cognito.InitiateAuthOutput.Session := None |} in
  let w :=
    fake.fresh
      (fake.answering (cognito.Success response) (cognito.Failure "unused")) in
  fst (Login fake.service (auth.NewLoginInput "Ada" "secret") w)
  = Returned (Some {| auth.LoginOutput.AccessToken := "access";
                      auth.LoginOutput.IdToken := "id";
                      auth.LoginOutput.RefreshToken := "refresh" |},
              None).
Proof.
  intros response w.
  destruct (Login_returns_tokens fake.service
              (auth.NewLoginInput "Ada" "secret") w (provider w) response
              eq_refl) as [Hreturned _].
  exact (Hreturned "access" "id" "refresh" eq_refl).
Defined.

(** X7: when the provider answers [RefreshToken]'s call with a success,
    [RefreshToken] returns exactly when the authentication result and its
    access and id tokens are present, and its output holds those two
    tokens; it does not read the refresh token of the result, so a response
    without one (as a refresh gives) is accepted. *)
Theorem RefreshToken_returns_tokens {P : Type} (c : cognitoAuth P)
    (input : auth.RefreshTokenInput.t) (w : World P) (p' : P)
    (cognitoOut : cognito.InitiateAuthOutput.t) :
  cognito.InitiateAuth (client c) (refresh_request c input) (provider w)
  = (p', cognito.Success cognitoOut) ->
  (forall accessToken idToken refreshToken,
     cognito.InitiateAuthOutput.AuthenticationResult cognitoOut
     = Some {| types.AuthenticationResultType.AccessToken := Some accessToken;
               types.AuthenticationResultType.IdToken := Some idToken;
               types.AuthenticationResultType.RefreshToken := refreshToken |}
     ->
     fst (RefreshToken c input w)
     = Returned (Some {| auth.RefreshTokenOutput.AccessToken := accessToken;
                         auth.RefreshTokenOutput.IdToken := idToken |},
                 None)) /\
  (fst (RefreshToken c input w) = Panicked <->
   match cognito.InitiateAuthOutput.AuthenticationResult cognitoOut with
   | None => True
   | Some result =>
       types.AuthenticationResultType.AccessToken result = None \/
       types.AuthenticationResultType.IdToken result = None
   end).
Proof.
  intros Hcall.
  rewrite (RefreshToken_success c w input p' cognitoOut Hcall). cbn [fst].
  split.
  - intros accessToken idToken refreshToken ->. reflexivity.
  - destruct (cognito.InitiateAuthOutput.AuthenticationResult cognitoOut)
      as [[[accessToken |] [idToken |] refreshToken] |]; cbn;
      split; try discriminate; try tauto; intros [? | ?]; discriminate.
Qed.

Lemma RefreshToken_returns_tokens_witness :
  let response :=
    {| cognito.InitiateAuthOutput.AuthenticationResult :=
         Some {| types.AuthenticationResultType.AccessToken := Some "access";
                 types.AuthenticationResultType.IdToken := Some "id";
                 types.AuthenticationResultType.RefreshToken := None |};
       cognito.InitiateAuthOutput.ChallengeName := "";
       cognito.InitiateAuthOutput.ChallengeParameters := ∅;
       cognito.InitiateAuthOutput.Session := None |} in
  let w :=
    fake.fresh
      (fake.answering (cognito.Success response) (cognito.Failure "unused")) in
  fst (RefreshToken fake.service (auth.NewRefreshTokenInput "refresh") w)
  = Returned (Some {| auth.RefreshTokenOutput.AccessToken := "access";
                      auth.RefreshTokenOutput.IdToken := "id" |},
              None).
Proof.
  intros response w.
  destruct (RefreshToken_returns_tokens fake.service
              (auth.NewRefreshTokenInput "refresh") w (provider w) response
              eq_refl) as [Hreturned _].
  exact (Hreturned "access" "id" None eq_refl).
Defined.

(** ** CreateAdmin *)

(** X8: when the creation call of [CreateAdmin] succeeds, [CreateAdmin]
    next asks the provider to add that username to the group [Admin] and
    sends nothing else, so a failed group assignment leaves the created
    identity in place. If the group call succeeds the output names the
    username of the input; if it fails [CreateAdmin] returns no output and
    [AddGroup]'s error for the failure text. *)
Theorem CreateAdmin_assigns_admin_group {P : Type} (c : cognitoAuth P)
    (input : auth.CreateAdminInput.t) (w : World P) (p1 p2 : P)
    (created : cognito.AdminCreateUserOutput.t)
    (assigned : cognito.Response cognito.AdminAddUserToGroupOutput.t) :
  let creation := createadmin_request c input in
  let assignment :=
    addgroup_request c (auth.CreateAdminInput.Username input) auth.Admin in
  cognito.AdminCreateUser (client c) creation (provider w)
  = (p1, cognito.Success created) ->
  cognito.AdminAddUserToGroup (client c) assignment p1 = (p2, assigned) ->
  issued (CreateAdmin c input) w
  = [ cognito.CallAdminCreateUser creation;
      cognito.CallAdminAddUserToGroup assignment ]
  /\ provider (snd (CreateAdmin c input w)) = p2
  /\ fst (CreateAdmin c input w)
     = Returned
         match assigned with
         | cognito.Success _ =>
             (Some {| auth.CreateAdminOutput.Username :=
                        auth.CreateAdminInput.Username input |},
              None)
         | cognito.Failure text =>
             (None, Some (observe.group_failure_error text))
         end.
Proof.
  intros creation assignment Hcreate Hassign.
  pose proof (CreateAdmin_created c w input p1 p2 created assigned
                Hcreate Hassign) as Hrun.
  cbn zeta in Hrun. split; [| split].
  - apply issued_app. rewrite Hrun. reflexivity.
  - rewrite Hrun. reflexivity.
  - rewrite Hrun. reflexivity.
Qed.

Lemma CreateAdmin_assigns_admin_group_witness :
  let input := auth.NewCreateAdminInput "Root" "temporary" "Root User" in
  let w := fake.fresh fake.admins_only in
  fst (CreateAdmin fake.directory_service input w)
  = Returned (Some {| auth.CreateAdminOutput.Username := "root" |}, None) /\
  fake.users (provider (snd (CreateAdmin fake.directory_service input w)))
  !! "root" = Some [ "Admin" ].
Proof.
  intros input w.
  destruct (CreateAdmin_assigns_admin_group fake.directory_service input w
              {| fake.users := <["root" := []]> ∅;
                 fake.groups := [ "Admin" ] |}
              {| fake.users := <["root" := [ "Admin" ]]> (<["root" := []]> ∅);
                 fake.groups := [ "Admin" ] |}
              cognito.AdminCreateUserOutput.Build_t
              (cognito.Success cognito.AdminAddUserToGroupOutput.Build_t)
              eq_refl eq_refl)
    as (_ & Hstate & Hret).
  split; [exact Hret |]. rewrite Hstate. reflexivity.
Defined.

(** X9: when the creation call of [CreateAdmin] fails with a text that
    contains "UsernameExistsException", [CreateAdmin] returns no output and
    the Conflict (409) error "Username already exists", logs nothing, and
    sends no group request: the existing identity is not made an admin. *)
Theorem CreateAdmin_username_exists {P : Type} (c : cognitoAuth P)
    (input : auth.CreateAdminInput.t) (w : World P) (p' : P)
    (text : string) :
  cognito.AdminCreateUser (client c) (createadmin_request c input)
    (provider w)
  = (p', cognito.Failure text) ->
  strings.Contains text "UsernameExistsException" = true ->
  let e := ApiError 409 "Username already exists" in
  fst (CreateAdmin c input w) = Returned (None, Some e) /\
  statusClass e = Some Conflict /\
  issued (CreateAdmin c input) w
  = [ cognito.CallAdminCreateUser (createadmin_request c input) ] /\
  logged (snd (CreateAdmin c input w)) = logged w.
Proof.
  intros Hcall Hexists e.
  pose proof (CreateAdmin_failure c w input p' text Hcall) as Hrun.
  cbn zeta in Hrun. rewrite Hexists in Hrun.
  repeat split.
  - rewrite Hrun. reflexivity.
  - apply issued_app. rewrite Hrun. reflexivity.
  - rewrite Hrun. reflexivity.
Qed.

Lemma CreateAdmin_username_exists_witness :
  let input := auth.NewCreateAdminInput "Root" "temporary" "Root User" in
  let taken :=
    {| fake.users := <["root" := []]> ∅; fake.groups := [ "Admin" ] |} in
  fst (CreateAdmin fake.directory_service input (fake.fresh taken))
  = Returned (None, Some (ApiError 409 "Username already exists")) /\
  fake.users
    (provider (snd (CreateAdmin fake.directory_service input
                      (fake.fresh taken)))) !! "root"
  = Some [].
Proof.
  intros input taken.
  destruct (CreateAdmin_username_exists fake.directory_service input
              (fake.fresh taken) taken
              "UsernameExistsException: User already exists"
              eq_refl eq_refl) as (Hret & _).
  split; [exact Hret | reflexivity].
Defined.

(** ** SignUp: what a failed group assignment looks like to the caller *)

(** X10: when the creation call of [SignUp] succeeds and the group call
    fails, the caller of [SignUp] gets [AddGroup]'s classification of that
    failure: NotFound (404) "User not found" when the text contains
    "UserNotFoundException", else NotFound (404) "Group not found" when it
    contains "ResourceNotFoundException", else the raw provider error,
    which is then logged under "Cognito add group error" and not under the
    sign-up message. *)
Theorem SignUp_group_failure_surface {P : Type} (c : cognitoAuth P)
    (input : auth.SignUpInput.t) (w : World P) (p1 p2 : P)
    (created : cognito.SignUpOutput.t) (text : string) :
  cognito.SignUp (client c) (signup_request c input) (provider w)
  = (p1, cognito.Success created) ->
  cognito.AdminAddUserToGroup (client c)
    (addgroup_request c (auth.SignUpInput.Username input) auth.User) p1
  = (p2, cognito.Failure text) ->
  let e :=
    if strings.Contains text "UserNotFoundException" then
      ApiError 404 "User not found"
    else if strings.Contains text "ResourceNotFoundException" then
      ApiError 404 "Group not found"
    else ClientError text in
  fst (SignUp c input w) = Returned (None, Some e) /\
  logged (snd (SignUp c input w))
  = logged w ++ (if is_domain_error e then []
                 else [ ("Cognito add group error", e) ]).
Proof.
  intros Hcreate Hassign e. subst e.
  rewrite (SignUp_created c w input p1 p2 created _ Hcreate Hassign).
  unfold observe.group_failure_error, observe.group_failure_log. cbn.
  destruct (strings.Contains text "UserNotFoundException");
    [| destruct (strings.Contains text "ResourceNotFoundException")];
    split; reflexivity.
Qed.

Lemma SignUp_group_failure_surface_witness :
  let input := auth.NewSignUpInput "Ada" "secret" "Ada L." in
  let w := fake.fresh fake.admins_only in
  fst (SignUp fake.directory_service input w)
  = Returned (None, Some (ApiError 404 "Group not found")) /\
  logged (snd (SignUp fake.directory_service input w)) = [].
Proof.
  intros input w.
  exact (SignUp_group_failure_surface fake.directory_service input w
           {| fake.users := <["ada" := []]> ∅; fake.groups := [ "Admin" ] |}
           {| fake.users := <["ada" := []]> ∅; fake.groups := [ "Admin" ] |}
           {| cognito.SignUpOutput.UserConfirmed := false;
              cognito.SignUpOutput.UserSub := None |}
           "ResourceNotFoundException: Group not found."
           eq_refl eq_refl).
Defined.

(** ** ConfirmSignUp and GetUser: the typed failures *)

(** X11: when the provider call of [ConfirmSignUp] fails with a text that
    contains "CodeMismatchException", [ConfirmSignUp] returns the
    BadRequest (400) error "Invalid confirmation code"; when the text
    contains "ExpiredCodeException" and not "CodeMismatchException", the
    BadRequest (400) error "Confirmation code expired". In both cases no
    output comes back and nothing is logged. *)
Theorem ConfirmSignUp_typed_failures {P : Type} (c : cognitoAuth P)
    (input : auth.ConfirmSignUpInput.t) (w : World P) (p' : P)
    (text : string) :
  cognito.ConfirmSignUp (client c) (confirm_request c input) (provider w)
  = (p', cognito.Failure text) ->
  strings.Contains text "CodeMismatchException"
  || strings.Contains text "ExpiredCodeException" = true ->
  let e :=
    ApiError 400
      (if strings.Contains text "CodeMismatchException"
       then "Invalid confirmation code" else "Confirmation code expired") in
  fst (ConfirmSignUp c input w) = Returned (None, Some e) /\
  statusClass e = Some BadRequest /\
  logged (snd (ConfirmSignUp c input w)) = logged w.
Proof.
  intros Hcall Hlisted e. subst e.
  rewrite (ConfirmSignUp_failure c w input p' text Hcall).
  destruct (strings.Contains text "CodeMismatchException");
    [| destruct (strings.Contains text "ExpiredCodeException");
       [| discriminate Hlisted]];
    repeat split.
Qed.

Lemma ConfirmSignUp_typed_failures_witness :
  fst (ConfirmSignUp fake.service
         (auth.NewConfirmSignUpInput "Ada" "123456")
         (fake.fresh (fake.failing "ExpiredCodeException: code expired")))
  = Returned (None, Some (ApiError 400 "Confirmation code expired")).
Proof.
  apply (ConfirmSignUp_typed_failures fake.service
           (auth.NewConfirmSignUpInput "Ada" "123456")
           (fake.fresh (fake.failing "ExpiredCodeException: code expired"))
           (fake.failing "ExpiredCodeException: code expired")
           "ExpiredCodeException: code expired");
    reflexivity.
Defined.

(** X12: when the provider call of [GetUser] fails with a text that
    contains "NotAuthorizedException", [GetUser] returns the Unauthorized
    (401) error "Invalid access token"; when the text contains
    "UserNotFoundException" and not "NotAuthorizedException", the NotFound
    (404) error "User not found". In both cases no output comes back and
    nothing is logged. *)
Theorem GetUser_typed_failures {P : Type} (c : cognitoAuth P)
    (input : auth.GetUserInput.t) (w : World P) (p' : P) (text : string) :
  cognito.GetUser (client c) (getuser_request input) (provider w)
  = (p', cognito.Failure text) ->
  strings.Contains text "NotAuthorizedException"
  || strings.Contains text "UserNotFoundException" = true ->
  let e :=
    if strings.Contains text "NotAuthorizedException"
    then ApiError 401 "Invalid access token"
    else ApiError 404 "User not found" in
  fst (GetUser c input w) = Returned (None, Some e) /\
  statusClass e
  = Some (if strings.Contains text "NotAuthorizedException"
          then Unauthorized else NotFound) /\
  logged (snd (GetUser c input w)) = logged w.
Proof.
  intros Hcall Hlisted e. subst e.
  rewrite (GetUser_failure c w input p' text Hcall).
  destruct (strings.Contains text "NotAuthorizedException");
    [| destruct (strings.Contains text "UserNotFoundException");
       [| discriminate Hlisted]];
    repeat split.
Qed.

Lemma GetUser_typed_failures_witness :
  fst (GetUser fake.service (auth.NewGetUserInput "stale")
         (fake.fresh (fake.failing "UserNotFoundException: no such user")))
  = Returned (None, Some (ApiError 404 "User not found")).
Proof.
  apply (GetUser_typed_failures fake.service (auth.NewGetUserInput "stale")
           (fake.fresh (fake.failing "UserNotFoundException: no such user"))
           (fake.failing "UserNotFoundException: no such user")
           "UserNotFoundException: no such user");
    reflexivity.
Defined.

(** ** The input constructors *)

Lemma lower_byte_not_upper (a : ascii) :
  observe.is_upper (strings.lower_byte a) = false.
Proof. destruct a as [[] [] [] [] [] [] [] []]; reflexivity. Qed.

Lemma lower_byte_fixed (a : ascii) :
  observe.is_upper a = false -> strings.lower_byte a = a.
Proof. destruct a as [[] [] [] [] [] [] [] []]; (reflexivity || discriminate). Qed.

Lemma ToLower_not_upper (s : string) :
  observe.all_bytes (fun a => negb (observe.is_upper a)) (strings.ToLower s)
  = true.
Proof.
  induction s as [| a s IH]; [reflexivity |].
  cbn [strings.ToLower observe.all_bytes].
  rewrite lower_byte_not_upper, IH. reflexivity.
Qed.

Lemma ToLower_length (s : string) :
  String.length (strings.ToLower s) = String.length s.
Proof.
  induction s as [| a s IH]; [reflexivity |].
  cbn [strings.ToLower String.length]. rewrite IH. reflexivity.
Qed.

Lemma ToLower_fixed (s : string) :
  observe.all_bytes (fun a => negb (observe.is_upper a)) s = true ->
  strings.ToLower s = s.
Proof.
  induction s as [| a s IH]; [reflexivity |].
  cbn [strings.ToLower observe.all_bytes]. intros Hlower.
  apply andb_prop in Hlower. destruct Hlower as [Ha Hs].
  rewrite lower_byte_fixed, (IH Hs); [reflexivity |].
  destruct (observe.is_upper a); [discriminate Ha | reflexivity].
Qed.

(** X13: for an ASCII username, each of [NewLoginInput], [NewSignUpInput],
    [NewConfirmSignUpInput] and [NewCreateAdminInput] stores a username of
    the same length with no upper-case letter left, which a second
    lower-casing would not change, and which is the given username itself
    when that had no upper-case letter; password, name and code are stored
    as given. *)
Theorem constructors_normalise (username password name code : string) :
  observe.all_bytes observe.is_ascii username = true ->
  let lower (s : string) :=
    observe.all_bytes (fun a => negb (observe.is_upper a)) s = true in
  Forall
    (fun stored =>
       lower stored /\
       String.length stored = String.length username /\
       strings.ToLower stored = stored /\
       (lower username -> stored = username))
    [ auth.LoginInput.Username (auth.NewLoginInput username password);
      auth.SignUpInput.Username
        (auth.NewSignUpInput username password name);
      auth.ConfirmSignUpInput.Username
        (auth.NewConfirmSignUpInput username code);
      auth.CreateAdminInput.Username
        (auth.NewCreateAdminInput username password name) ] /\
  auth.LoginInput.Password (auth.NewLoginInput username password) = password
  /\ auth.SignUpInput.Password (auth.NewSignUpInput username password name)
     = password
  /\ auth.SignUpInput.Name (auth.NewSignUpInput username password name) = name
  /\ auth.ConfirmSignUpInput.Code (auth.NewConfirmSignUpInput username code)
     = code
  /\ auth.CreateAdminInput.Password
       (auth.NewCreateAdminInput username password name) = password
  /\ auth.CreateAdminInput.Name
       (auth.NewCreateAdminInput username password name) = name.
Proof.
  intros _ lower. subst lower. cbn beta.
  assert (Hstored :
    observe.all_bytes (fun a => negb (observe.is_upper a))
      (strings.ToLower username) = true /\
    String.length (strings.ToLower username) = String.length username /\
    strings.ToLower (strings.ToLower username) = strings.ToLower username /\
    (observe.all_bytes (fun a => negb (observe.is_upper a)) username = true ->
     strings.ToLower username = username)).
  { split; [apply ToLower_not_upper |].
    split; [apply ToLower_length |].
    split; [apply ToLower_idempotent | apply ToLower_fixed]. }
  split; [| repeat split].
  repeat (constructor; [exact Hstored |]). constructor.
Qed.

Lemma constructors_normalise_witness :
  auth.NewLoginInput "Ada.Lovelace@Example.ORG" "Secret"
  = {| auth.LoginInput.Username := "ada.lovelace@example.org";
       auth.LoginInput.Password := "Secret" |} /\
  strings.ToLower "ada.lovelace@example.org" = "ada.lovelace@example.org".
Proof.
  destruct (constructors_normalise "Ada.Lovelace@Example.ORG" "Secret"
              "Ada" "123456" eq_refl) as [Hnames _].
  split; [reflexivity |].
  apply Forall_cons_1 in Hnames. destruct Hnames as [(_ & _ & Hfixed & _) _].
  exact Hfixed.
Defined.

(** The directory rejects a second sign-up of the same username, and the
    caller is told so. *)
Lemma provider_failures_reach_caller_witness :
  let taken :=
    {| fake.users := <["ada" := []]> ∅; fake.groups := [ "User" ] |} in
  exists e,
    fst (perform fake.directory_service
           (OpSignUp (auth.NewSignUpInput "Ada" "secret" "Ada L."))
           (fake.fresh taken))
    = Returned (false, Some e).
Proof.
  intros taken.
  destruct (provider_failures_reach_caller fake.directory_service
              (fake.fresh taken)
              (OpSignUp (auth.NewSignUpInput "Ada" "secret" "Ada L."))
              "UsernameExistsException: User already exists" eq_refl)
    as (e & Hrun & _).
  exists e. exact Hrun.
Defined.
